(** * To-do list REST API (todos.py): hypermedia links, pagination and CRUD

    A shallow embedding of [src/todos.py].  The module-level list [todos] is
    threaded explicitly through the handlers: a handler takes the request
    data and the current store and returns its outcome together with the
    store it leaves behind.  Python dictionaries with a fixed set of keys are
    records; dictionaries used as maps ([_links], the request body) are
    [gmap string _]; Python integers are [Z].  [request.json] is evaluated
    inside the handlers, so a request without a JSON body is part of the
    model: the accessor raises and Flask answers with the exception's
    status. *)

From stdpp Require Import base numbers option list gmap strings sorting.
From Stdlib Require Import QArith DecimalString.

Set Warnings "-register-all".
#[local] Open Scope Z_scope.

(** ** JSON values and the Python operators the handlers apply to them *)

(** A Python float as [json.loads] can produce it. *)
Inductive pyfloat :=
| Finite (q : Q)
| Infinite (negative : bool)
| NaN.

(** A JSON value as [request.json] yields it; [JNull] is Python's [None]. *)
Inductive json :=
| JNull
| JBool (b : bool)
| JInt (n : Z)
| JFloat (f : pyfloat)
| JStr (s : string)
| JList (l : list json)
| JObj (m : gmap string json).

(** The exceptions the handlers can raise.  [UnsupportedMediaType] and
    [BadRequest] are the HTTP exceptions [request.json] raises; Flask answers
    an HTTP exception with the exception's own status, and any other
    exception that no handler catches with status 500. *)
Inductive exn :=
| TypeError | KeyError | AttributeError | ValueError
| UnsupportedMediaType | BadRequest.

(** Evaluation of a Python expression: a value or a raised exception. *)
Inductive py (A : Type) :=
| Ok (a : A)
| Raise (e : exn).
Arguments Ok {A} a.
Arguments Raise {A} e.

(** The monad structure of [py], so that stdpp's [x ← c; k] sequences
    evaluations and stops at the first exception. *)
#[global] Instance py_ret : MRet py := λ A a, Ok a.
#[global] Instance py_bind : MBind py := λ A B k c,
  match c with
  | Ok a => k a
  | Raise e => Raise e
  end.
#[global] Instance py_fmap : FMap py := λ A B f c,
  match c with
  | Ok a => Ok (f a)
  | Raise e => Raise e
  end.

(** What a request carries as its body, as far as [request.json] tells it
    apart: [NotJson] is a request whose Content-Type is not JSON (a request
    without any body is one), [BadJson] a request that announces JSON and
    whose body does not parse (an empty body is one), [Json v] a request
    whose body parses to [v].  A JSON value used where a body is expected
    stands for the body that parses to it. *)
Inductive http_body :=
| NotJson
| BadJson
| Json (v : json).
Coercion Json : json >-> http_body.

(** [request.json]: Flask's accessor raises [UnsupportedMediaType] (415)
    when the Content-Type is not JSON and [BadRequest] (400) when the body
    does not parse; otherwise it yields the parsed value. *)
Definition request_json (body : http_body) : py json :=
  match body with
  | NotJson => Raise UnsupportedMediaType
  | BadJson => Raise BadRequest
  | Json v => Ok v
  end.

(** [bool(x)]. *)
Definition truthy (x : json) : bool :=
  match x with
  | JNull => false
  | JBool b => b
  | JInt n => negb (n =? 0)
  | JFloat (Finite q) => negb (Qnum q =? 0)
  | JFloat _ => true
  | JStr s => negb (String.eqb s "")
  | JList l => negb (bool_decide (l = []))
  | JObj m => negb (bool_decide (m = ∅))
  end.

(** [key in x] for a string [key]: key membership in a dict, element
    membership in a list (only a string compares equal to [key]), substring
    test in a string, [TypeError] for anything else. *)
Definition contains (key : string) (x : json) : py bool :=
  match x with
  | JObj m => Ok (bool_decide (is_Some (m !! key)))
  | JList l =>
      Ok (existsb (λ y, match y with JStr s => String.eqb s key | _ => false end) l)
  | JStr s => Ok (bool_decide (is_Some (String.index 0 key s)))
  | JNull | JBool _ | JInt _ | JFloat _ => Raise TypeError
  end.

(** [x[key]] for a string [key]. *)
Definition getitem (x : json) (key : string) : py json :=
  match x with
  | JObj m => match m !! key with Some v => Ok v | None => Raise KeyError end
  | _ => Raise TypeError
  end.

(** [x.get(key, dflt)]: only a dict has the method. *)
Definition get (x : json) (key : string) (dflt : json) : py json :=
  match x with
  | JObj m => Ok (default dflt (m !! key))
  | _ => Raise AttributeError
  end.

(** [max(xs)] of a sequence of integers. *)
Definition py_max (xs : list Z) : py Z :=
  match xs with
  | [] => Raise ValueError
  | x :: xs' => Ok (foldl Z.max x xs')
  end.

(** [str(n)] for an integer [n]. *)
Definition str (n : Z) : string := NilEmpty.string_of_int (Z.to_int n).

(** [l[start:stop]]: a negative bound counts from the end, and both bounds
    are clipped to the length of the list. *)
Definition slice_bound (len i : Z) : Z :=
  if i <? 0 then Z.max (i + len) 0 else Z.min i len.

Definition slice {A} (l : list A) (start stop : Z) : list A :=
  let len := Z.of_nat (length l) in
  let lo := slice_bound len start in
  let hi := slice_bound len stop in
  take (Z.to_nat (hi - lo)) (drop (Z.to_nat lo) l).

(** ** Data model *)

(** One entry of [todos]: a dict with the keys ['id'], ['task'] and ['done'].
    The handlers store whatever JSON value the request carries under
    ['task'] and ['done']. *)
Record todo := { id : Z; task : json; done : json }.

(** The list [todos] as the module defines it. *)
Definition sample_todos : list todo :=
  [ {| id := 1; task := JStr "Learn Flask"; done := JBool false |};
    {| id := 2; task := JStr "Build a REST API"; done := JBool false |};
    {| id := 3; task := JStr "Test the API"; done := JBool false |};
    {| id := 4; task := JStr "Watch another course from Kesha"; done := JBool false |};
    {| id := 5; task := JStr "Learn Laravel"; done := JBool false |};
    {| id := 6; task := JStr "Build a GraphQL API"; done := JBool false |};
    {| id := 7; task := JStr "Learn Java Spring"; done := JBool false |};
    {| id := 8; task := JStr "Build a gRPC API"; done := JBool false |};
    {| id := 9; task := JStr "Learn .NET"; done := JBool false |};
    {| id := 10; task := JStr "Build a SOAP API"; done := JBool false |};
    {| id := 11; task := JStr "Learn Django"; done := JBool false |};
    {| id := 12; task := JStr "Document an API"; done := JBool false |};
    {| id := 13; task := JStr "Learn Node.js"; done := JBool false |};
    {| id := 14; task := JStr "Secure an API"; done := JBool false |};
    {| id := 15; task := JStr "Learn Next.js"; done := JBool false |};
    {| id := 16; task := JStr "Build a WebSockets connection"; done := JBool false |} ].

(** [url_for(endpoint, **values, _external=True)].  Flask builds the URL
    string; the embedding keeps what the URL is built from: the endpoint
    name, the values (a path variable or query parameters) and the
    [_external] flag. *)
Record url := { endpoint : string; values : gmap string Z; _external : bool }.

Definition url_for (endpoint : string) (values : gmap string Z) (_external : bool) : url :=
  {| endpoint := endpoint; values := values; _external := _external |}.

(** A link object [{'href': ...}]. *)
Record link := { href : url }.

(** [{**todo, '_links': {...}}]: the entries of the item and its links. *)
Record todo_repr := { entries : todo; item_links : gmap string link }.

Record page_info := { offset : Z; size : Z; total_items : Z }.

Record embedded := { embedded_todos : list todo_repr }.

Record collection_repr :=
  { _links : gmap string link; _embedded : embedded; page : page_info }.

(** The payloads the handlers pass to [jsonify]. *)
Inductive payload :=
| ErrorPayload (error : string)
| Collection (c : collection_repr)
| Item (t : todo_repr)
| MessageTodo (message : string) (t : todo_repr)
| MessageLinks (message : string) (links : gmap string link).

(** What a handler call ends in: a returned [(jsonify(payload), status)] or
    an exception that escapes the handler. *)
Inductive outcome :=
| Response (body : payload) (status : Z)
| Unhandled (e : exn).

(** The HTTP status the client sees. *)
Definition status_code (o : outcome) : Z :=
  match o with
  | Response _ s => s
  | Unhandled UnsupportedMediaType => 415
  | Unhandled BadRequest => 400
  | Unhandled _ => 500
  end.

(** ** Helpers of the module *)

(** [next((todo for todo in todos if todo['id'] == todo_id), None)]: the
    first entry with the id, together with its position in the list, which
    stands for the identity of the dict object the caller may mutate. *)
Definition find_todo (todo_id : Z) (todos : list todo) : option (nat * todo) :=
  list_find (λ todo, id todo = todo_id) todos.

Definition add_todo_links (todo : todo) : todo_repr :=
  {| entries := todo;
     item_links :=
       {[ "self" := {| href := url_for "get_todo" {[ "todo_id" := id todo ]} true |};
          "update" := {| href := url_for "update_todo" {[ "todo_id" := id todo ]} true |};
          "delete" := {| href := url_for "delete_todo" {[ "todo_id" := id todo ]} true |};
          "collection" := {| href := url_for "get_todos" ∅ true |} ]} |}.

Definition add_collection_links
    (items : list todo) (offset size total_items : Z) : collection_repr :=
  let self_url := url_for "get_todos" {[ "offset" := offset; "size" := size ]} true in
  let links : gmap string link :=
    {[ "self" := {| href := self_url |};
       "create" := {| href := url_for "create_todo" ∅ true |} ]} in
  let links :=
    if offset >? 0 then
      let prev_offset := Z.max (offset - size) 0 in
      <[ "prev" :=
           {| href := url_for "get_todos" {[ "offset" := prev_offset; "size" := size ]} true |} ]>
        links
    else links in
  let links :=
    if offset + size <? total_items then
      let next_offset := offset + size in
      <[ "next" :=
           {| href := url_for "get_todos" {[ "offset" := next_offset; "size" := size ]} true |} ]>
        links
    else links in
  {| _links := links;
     _embedded := {| embedded_todos := add_todo_links <$> items |};
     page := {| offset := offset; size := size; total_items := total_items |} |}.

(** ** Routes *)

(** The query string of [GET /todos] as [request.args.get(key, type=int)]
    reads it: the converted value, or [None] when the parameter is omitted or
    its conversion fails (the default is returned in both cases). *)
Record query_args := { arg_offset : option Z; arg_size : option Z }.

Definition get_todos (args : query_args) (todos : list todo) : outcome * list todo :=
  let offset := default 0 (arg_offset args) in
  let size := default 5 (arg_size args) in
  if (offset <? 0) || (size <=? 0) then
    (Response
       (ErrorPayload
          "Invalid pagination parameters. Offset must be >= 0 and size must be > 0.")
       400,
     todos)
  else
    let total_items := Z.of_nat (length todos) in
    let paged_items := slice todos offset (offset + size) in
    (Response (Collection (add_collection_links paged_items offset size total_items)) 200,
     todos).

Definition get_todo (todo_id : Z) (todos : list todo) : outcome * list todo :=
  match find_todo todo_id todos with
  | None => (Response (ErrorPayload "To-do item not found") 404, todos)
  | Some (_, todo) => (Response (Item (add_todo_links todo)) 200, todos)
  end.

(** [run todos c]: the outcome of a handler body [c] that runs while the
    store is [todos]; an exception escapes and leaves that store behind. *)
Definition run (todos : list todo) (c : py (outcome * list todo)) : outcome * list todo :=
  match c with
  | Ok r => r
  | Raise e => (Unhandled e, todos)
  end.

Definition create_todo (body : http_body) (todos : list todo) : outcome * list todo :=
  run todos (
    data ← request_json body;
    missing ← (if negb (truthy data) then Ok true else negb <$> contains "task" data);
    if missing : bool then
      Ok (Response (ErrorPayload "Task description is required") 400, todos)
    else
      new_id ← (if bool_decide (todos = []) then Ok 1
                else (m ← py_max (id <$> todos); Ok (m + 1)));
      new_task ← getitem data "task";
      new_done ← get data "done" (JBool false);
      let new_todo := {| id := new_id; task := new_task; done := new_done |} in
      Ok (Response (MessageTodo "To-do item created" (add_todo_links new_todo)) 201,
          todos ++ [new_todo])).

Definition update_todo (todo_id : Z) (body : http_body) (todos : list todo)
    : outcome * list todo :=
  match find_todo todo_id todos with
  | None => (Response (ErrorPayload "To-do item not found") 404, todos)
  | Some (i, todo) =>
      run todos (
        value ← request_json body;
        let data := if truthy value then value else JObj ∅ in
        new_task ← get data "task" (task todo);
        let todo := {| id := id todo; task := new_task; done := done todo |} in
        let todos := <[ i := todo ]> todos in
        Ok (run todos (
          new_done ← get data "done" (done todo);
          let todo := {| id := id todo; task := task todo; done := new_done |} in
          let todos := <[ i := todo ]> todos in
          Ok (Response (MessageTodo "To-do item updated" (add_todo_links todo)) 200,
              todos))))
  end.

Definition delete_todo (todo_id : Z) (todos : list todo) : outcome * list todo :=
  let todos := filter (λ todo, id todo ≠ todo_id) todos in
  (Response
     (MessageLinks
        ("To-do item with ID " +:+ str todo_id +:+ " deleted")
        {[ "collection" := {| href := url_for "get_todos" ∅ true |} ]})
     200,
   todos).

(** ** The operations on the store, as requests *)

Inductive request :=
| GetTodos (args : query_args)
| GetTodo (todo_id : Z)
| CreateTodo (body : http_body)
| UpdateTodo (todo_id : Z) (body : http_body)
| DeleteTodo (todo_id : Z).

Definition handle (r : request) (todos : list todo) : outcome * list todo :=
  match r with
  | GetTodos args => get_todos args todos
  | GetTodo todo_id => get_todo todo_id todos
  | CreateTodo body => create_todo body todos
  | UpdateTodo todo_id body => update_todo todo_id body todos
  | DeleteTodo todo_id => delete_todo todo_id todos
  end.

(** ** Derived definitions used in the statements *)

(** The value of [max(todo['id'] for todo in todos) + 1 if todos else 1]. *)
Definition next_id (todos : list todo) : Z :=
  match todos with
  | [] => 1
  | t :: ts => foldl Z.max (id t) (id <$> ts) + 1
  end.

(** The claim's reading of the create guard: the body is an object whose
    [task] is a non-empty string. *)
Definition has_nonempty_task (data : json) : bool :=
  match data with
  | JObj m =>
      match m !! "task" with
      | Some (JStr s) => negb (String.eqb s "")
      | _ => false
      end
  | _ => false
  end.

(** The item representations a payload carries. *)
Definition representations (p : payload) : list todo_repr :=
  match p with
  | Collection c => embedded_todos (_embedded c)
  | Item t | MessageTodo _ t => [t]
  | ErrorPayload _ | MessageLinks _ _ => []
  end.

Definition outcome_representations (o : outcome) : list todo_repr :=
  match o with
  | Response body _ => representations body
  | Unhandled _ => []
  end.

(** The query parameters a link to [get_todos] carries: what the list
    handler reads when a client requests the link. *)
Definition link_args (l : link) : query_args :=
  {| arg_offset := values (href l) !! "offset";
     arg_size := values (href l) !! "size" |}.

(** A client that requests a page and then keeps requesting the [next] link,
    collecting the entries of the embedded items; [fuel] bounds the number of
    requests. *)
Fixpoint follow_next (fuel : nat) (args : query_args) (todos : list todo) : list todo :=
  match fuel with
  | O => []
  | S fuel =>
      match (get_todos args todos).1 with
      | Response (Collection c) _ =>
          (entries <$> embedded_todos (_embedded c)) ++
          match _links c !! "next" with
          | Some l => follow_next fuel (link_args l) todos
          | None => []
          end
      | _ => []
      end
  end.

(** The store after a sequence of requests. *)
Definition handle_all (rs : list request) (todos : list todo) : list todo :=
  foldl (λ todos r, (handle r todos).2) todos rs.

(** The ids grow along the store. *)
Definition ids_increasing (todos : list todo) : Prop :=
  StronglySorted Z.lt (id <$> todos).

(** ** Sample evaluations *)

Example ex_first_page :
  (λ c, (length (embedded_todos (_embedded c)), _links c !! "prev",
         (λ l, values (href l) !! "offset") <$> _links c !! "next"))
    (add_collection_links (slice sample_todos 0 5) 0 5 16)
  = (5%nat, None, Some (Some 5)).
Proof. vm_compute. reflexivity. Qed.

Example ex_create :
  last (create_todo (JObj {[ "task" := JStr "X" ]}) sample_todos).2
  = Some {| id := 17; task := JStr "X"; done := JBool false |}.
Proof. vm_compute. reflexivity. Qed.

Example ex_delete_message :
  (delete_todo 999 sample_todos).1
  = Response (MessageLinks "To-do item with ID 999 deleted"
                {[ "collection" := {| href := url_for "get_todos" ∅ true |} ]}) 200.
Proof. vm_compute. reflexivity. Qed.

Example ex_update :
  (update_todo 3 (JObj {[ "done" := JBool true ]}) sample_todos).2 !! 2%nat
  = Some {| id := 3; task := JStr "Test the API"; done := JBool true |}.
Proof. vm_compute. reflexivity. Qed.

Example ex_contains_str : contains "task" (JStr "my task!") = Ok true.
Proof. vm_compute. reflexivity. Qed.

Example ex_truthy :
  truthy (JObj {[ "done" := JBool true ]}) = true ∧ truthy (JObj ∅) = false ∧
  truthy (JStr "") = false ∧ truthy (JList [JNull]) = true ∧
  truthy (JFloat (Finite 0)) = false ∧ truthy (JFloat NaN) = true.
Proof. vm_compute. done. Qed.

Example ex_create_non_object :
  create_todo (JList [JStr "task"]) sample_todos = (Unhandled TypeError, sample_todos) ∧
  create_todo (JInt 7) sample_todos = (Unhandled TypeError, sample_todos) ∧
  status_code (create_todo (JList [JStr "x"]) sample_todos).1 = 400.
Proof. vm_compute. done. Qed.

Example ex_slice :
  slice [1; 2; 3; 4; 5] 1 3 = [2; 3] ∧ slice [1; 2; 3; 4; 5] 3 10 = [4; 5] ∧
  slice [1; 2; 3; 4; 5] 7 9 = [] ∧ slice [1; 2; 3; 4; 5] (-2) 5 = [4; 5] ∧
  slice [1; 2; 3; 4; 5] 3 1 = [].
Proof. vm_compute. done. Qed.

(** ** Facts about the Python operators *)

Section slice_facts.
Context {A : Type}.
Implicit Types l : list A.

(** With a non-negative start and a positive length the slice
    [l[off : off + sz]] is the [sz] elements after the first [off]. *)
Lemma slice_window l (off sz : Z) :
  0 ≤ off → 0 < sz →
  slice l off (off + sz) = take (Z.to_nat sz) (drop (Z.to_nat off) l).
Proof.
  intros Hoff Hsz. unfold slice, slice_bound.
  destruct (Z.ltb_spec off 0) as [?|_]; [lia|].
  destruct (Z.ltb_spec (off + sz) 0) as [?|_]; [lia|].
  set (len := Z.of_nat (length l)).
  destruct (Z.le_gt_cases len off) as [Hge|Hlt].
  - rewrite (Z.min_r off len), (Z.min_r (off + sz) len) by lia.
    rewrite Z.sub_diag, !drop_ge by (subst len; lia). by rewrite !take_nil.
  - rewrite (Z.min_l off len) by lia.
    destruct (Z.le_gt_cases (off + sz) len) as [Hin|Hout].
    + rewrite Z.min_l by lia. f_equal. lia.
    + rewrite Z.min_r by lia.
      rewrite !take_ge; [done | |]; rewrite length_drop; subst len; lia.
Qed.

Lemma window_lookup l (off sz : Z) (i : nat) :
  0 ≤ off →
  take (Z.to_nat sz) (drop (Z.to_nat off) l) !! i
  = if decide (Z.of_nat i < sz) then l !! (Z.to_nat off + i)%nat else None.
Proof.
  intros Hoff. rewrite lookup_take, lookup_drop.
  repeat case_decide; (done || lia).
Qed.
End slice_facts.

Lemma foldl_max_ge (xs : list Z) (x : Z) :
  x ≤ foldl Z.max x xs ∧ ∀ y, y ∈ xs → y ≤ foldl Z.max x xs.
Proof.
  revert x. induction xs as [|z xs IH]; intros x; simpl.
  - split; [lia | intros y Hy; by apply elem_of_nil in Hy].
  - destruct (IH (Z.max x z)) as [Hx Hys]. split; [lia|].
    intros y [->|Hy]%elem_of_cons; [lia | by apply Hys].
Qed.

Lemma foldl_max_elem (xs : list Z) (x : Z) : foldl Z.max x xs ∈ x :: xs.
Proof.
  revert x. induction xs as [|z xs IH]; intros x; simpl.
  - apply list_elem_of_here.
  - specialize (IH (Z.max x z)). apply elem_of_cons in IH as [Heq|Hin].
    + rewrite Heq. destruct (Z.max_spec x z) as [[_ ->]|[_ ->]].
      * apply list_elem_of_further, list_elem_of_here.
      * apply list_elem_of_here.
    + by do 2 apply list_elem_of_further.
Qed.

(** [max] of a non-empty sequence is one of its elements and bounds them all. *)
Lemma py_max_spec (xs : list Z) :
  xs ≠ [] → ∃ m, py_max xs = Ok m ∧ m ∈ xs ∧ ∀ y, y ∈ xs → y ≤ m.
Proof.
  destruct xs as [|x xs]; [done|]. intros _. exists (foldl Z.max x xs).
  split; [done|]. split; [apply foldl_max_elem|].
  destruct (foldl_max_ge xs x) as [Hx Hys].
  intros y [->|Hy]%elem_of_cons; auto.
Qed.

(** ** Facts about [find_todo] *)

Lemma find_todo_Some (todo_id : Z) (todos : list todo) (i : nat) (t : todo) :
  find_todo todo_id todos = Some (i, t) ↔
  todos !! i = Some t ∧ id t = todo_id ∧
  ∀ (j : nat) u, todos !! j = Some u → (j < i)%nat → id u ≠ todo_id.
Proof. unfold find_todo. by rewrite list_find_Some. Qed.

Lemma find_todo_None (todo_id : Z) (todos : list todo) :
  find_todo todo_id todos = None ↔ ∀ t, t ∈ todos → id t ≠ todo_id.
Proof. unfold find_todo. rewrite list_find_None, Forall_forall. done. Qed.

Lemma find_todo_is_Some (todo_id : Z) (todos : list todo) :
  is_Some (find_todo todo_id todos) ↔ ∃ t, t ∈ todos ∧ id t = todo_id.
Proof.
  split.
  - intros [[i t] (Hi & Hid & _)%find_todo_Some].
    exists t. split; [|done]. apply list_elem_of_lookup. eauto.
  - intros (t & Hin & Hid). by apply (list_find_elem_of _ _ t).
Qed.

(** ** Facts about the links of a collection *)

Lemma collection_prev items off sz total :
  _links (add_collection_links items off sz total) !! "prev"
  = if off >? 0 then
      Some {| href := url_for "get_todos"
                        {[ "offset" := Z.max (off - sz) 0; "size" := sz ]} true |}
    else None.
Proof.
  unfold add_collection_links; simpl.
  destruct (off >? 0), (off + sz <? total); by simplify_map_eq.
Qed.

Lemma collection_next items off sz total :
  _links (add_collection_links items off sz total) !! "next"
  = if off + sz <? total then
      Some {| href := url_for "get_todos" {[ "offset" := off + sz; "size" := sz ]} true |}
    else None.
Proof.
  unfold add_collection_links; simpl.
  destruct (off >? 0), (off + sz <? total); by simplify_map_eq.
Qed.

Lemma collection_self_create items off sz total :
  _links (add_collection_links items off sz total) !! "self"
  = Some {| href := url_for "get_todos" {[ "offset" := off; "size" := sz ]} true |} ∧
  _links (add_collection_links items off sz total) !! "create"
  = Some {| href := url_for "create_todo" ∅ true |}.
Proof.
  unfold add_collection_links; simpl.
  destruct (off >? 0), (off + sz <? total); by simplify_map_eq.
Qed.

(** ** The claims *)

(** C1.  In the representation built by [add_collection_links], whatever the
    items, offset, size and total (so in particular for every offset >= 0 and
    size > 0): the [prev] link is present exactly when the offset is
    positive, and its [offset] query parameter is [max(offset - size, 0)];
    the [next] link is present exactly when [offset + size < total_items],
    and its [offset] query parameter is exactly [offset + size]. *)
Theorem add_collection_links_prev_next
    (items : list todo) (off sz total : Z) :
  let links := _links (add_collection_links items off sz total) in
  (is_Some (links !! "prev") ↔ 0 < off) ∧
  (∀ l, links !! "prev" = Some l →
        endpoint (href l) = "get_todos" ∧
        values (href l) !! "offset" = Some (Z.max (off - sz) 0) ∧
        values (href l) !! "size" = Some sz) ∧
  (is_Some (links !! "next") ↔ off + sz < total) ∧
  (∀ l, links !! "next" = Some l →
        endpoint (href l) = "get_todos" ∧
        values (href l) !! "offset" = Some (off + sz) ∧
        values (href l) !! "size" = Some sz).
Proof.
  intros links. subst links.
  rewrite collection_prev, collection_next.
  destruct (Z.gtb_spec off 0) as [Hp|Hp], (Z.ltb_spec (off + sz) total) as [Hn|Hn].
  all: split_and!.
  all: try (split; [intros _; lia | intros _; eauto]).
  all: try (split; [intros [? [=]] | intros ?; lia]).
  all: intros l [= <-]; simpl; by simplify_map_eq.
Qed.

(** The response of the list handler for valid pagination parameters. *)
Lemma get_todos_valid (args : query_args) (todos : list todo) :
  let off := default 0 (arg_offset args) in
  let sz := default 5 (arg_size args) in
  0 ≤ off → 0 < sz →
  get_todos args todos
  = (Response
       (Collection
          (add_collection_links (slice todos off (off + sz)) off sz
             (Z.of_nat (length todos))))
       200,
     todos).
Proof.
  intros off sz Hoff Hsz. unfold get_todos. fold off sz.
  destruct (Z.ltb_spec off 0); [lia|].
  destruct (Z.leb_spec sz 0); [lia|]. done.
Qed.

(** C2.  For valid pagination parameters (offset >= 0, size > 0) and a store
    of N items, the [page] field is [{offset, size, total_items}] as passed
    in: the builder copies its three arguments whatever items it is given,
    and the list handler's response carries the requested offset and size
    and [total_items = N], however many items the window holds. *)
Theorem page_is_verbatim
    (args : query_args) (todos items : list todo) (total : Z) :
  let off := default 0 (arg_offset args) in
  let sz := default 5 (arg_size args) in
  0 ≤ off → 0 < sz →
  page (add_collection_links items off sz total)
  = {| offset := off; size := sz; total_items := total |} ∧
  ∃ c, (get_todos args todos).1 = Response (Collection c) 200 ∧
       page c = {| offset := off; size := sz;
                   total_items := Z.of_nat (length todos) |}.
Proof.
  intros off sz Hoff Hsz. split; [done|].
  rewrite (get_todos_valid args todos Hoff Hsz). simpl. eauto.
Qed.

(** On the last page of the sample store one item is embedded and the page
    still reports the requested size 5. *)
Lemma page_is_verbatim_last_page :
  ∃ c, (get_todos {| arg_offset := Some 15; arg_size := Some 5 |} sample_todos).1
       = Response (Collection c) 200 ∧
       page c = {| offset := 15; size := 5; total_items := 16 |} ∧
       length (embedded_todos (_embedded c)) = 1%nat.
Proof.
  destruct (page_is_verbatim {| arg_offset := Some 15; arg_size := Some 5 |}
              sample_todos [] 0 ltac:(simpl; lia) ltac:(simpl; lia))
    as (_ & c & Hc & Hpage).
  exists c. split; [exact Hc|]. split; [exact Hpage|].
  simpl in Hc. injection Hc as <-. reflexivity.
Defined.

(** C3.  For a store of length N and valid offset >= 0, size > 0, the list
    handler answers 200, leaves the store as it is, and embeds the
    representations of the window [todos[offset : offset + size]]: the window
    is the [size] entries that follow the first [offset] ones, so its i-th
    entry is the store's entry at [offset + i] (the store's order); it is
    empty when [offset >= N], it is the whole tail when [offset + size > N],
    and [total_items] is N. *)
Theorem get_todos_window (todos : list todo) (off sz : Z) :
  0 ≤ off → 0 < sz →
  let N := Z.of_nat (length todos) in
  let window := take (Z.to_nat sz) (drop (Z.to_nat off) todos) in
  ∃ c,
    get_todos {| arg_offset := Some off; arg_size := Some sz |} todos
    = (Response (Collection c) 200, todos) ∧
    slice todos off (off + sz) = window ∧
    embedded_todos (_embedded c) = add_todo_links <$> window ∧
    entries <$> embedded_todos (_embedded c) = window ∧
    total_items (page c) = N ∧
    (∀ i : nat,
       window !! i
       = if decide (Z.of_nat i < sz) then todos !! (Z.to_nat off + i)%nat else None) ∧
    (N ≤ off → window = []) ∧
    (N < off + sz → window = drop (Z.to_nat off) todos).
Proof.
  intros Hoff Hsz N window.
  eexists. split.
  { apply (get_todos_valid {| arg_offset := Some off; arg_size := Some sz |}); done. }
  simpl. rewrite slice_window by done. fold window.
  split_and!; try done.
  - rewrite <- list_fmap_compose. apply list_fmap_id.
  - intros i. by apply window_lookup.
  - intros HN. subst window. rewrite drop_ge by lia. apply take_nil.
  - intros HN. subst window. apply take_ge. rewrite length_drop. lia.
Qed.

(** The last page of the sample store: offset 15, size 5 gives the single
    entry with id 16. *)
Lemma get_todos_window_last_page :
  ∃ c,
    get_todos {| arg_offset := Some 15; arg_size := Some 5 |} sample_todos
    = (Response (Collection c) 200, sample_todos) ∧
    entries <$> embedded_todos (_embedded c)
    = [ {| id := 16; task := JStr "Build a WebSockets connection"; done := JBool false |} ] ∧
    total_items (page c) = 16.
Proof.
  destruct (get_todos_window sample_todos 15 5 ltac:(lia) ltac:(lia))
    as (c & Hc & _ & _ & Hwin & Htotal & _).
  exists c. split; [exact Hc|]. split; [exact Hwin | exact Htotal].
Defined.

(** C4.  [GET /todos] answers 400 with an error payload exactly when
    [offset < 0] or [size <= 0], where an omitted parameter counts as
    [offset = 0] and [size = 5] (the handler answers as it does to the
    request that spells the defaults out); the values are not clamped: the
    request is refused.  Otherwise it answers 200 with the collection
    representation of the window.  The store is never changed. *)
Theorem get_todos_validation (args : query_args) (todos : list todo) :
  let off := default 0 (arg_offset args) in
  let sz := default 5 (arg_size args) in
  (status_code (get_todos args todos).1 = 400 ↔ off < 0 ∨ sz ≤ 0) ∧
  (off < 0 ∨ sz ≤ 0 →
   ∃ message, get_todos args todos = (Response (ErrorPayload message) 400, todos)) ∧
  (¬ (off < 0 ∨ sz ≤ 0) →
   get_todos args todos
   = (Response
        (Collection
           (add_collection_links (slice todos off (off + sz)) off sz
              (Z.of_nat (length todos))))
        200,
      todos)) ∧
  get_todos args todos
  = get_todos {| arg_offset := Some off; arg_size := Some sz |} todos ∧
  get_todos {| arg_offset := None; arg_size := None |} todos
  = get_todos {| arg_offset := Some 0; arg_size := Some 5 |} todos.
Proof.
  intros off sz.
  assert (Hbad : off < 0 ∨ sz ≤ 0 →
                 get_todos args todos
                 = (Response
                      (ErrorPayload
                         "Invalid pagination parameters. Offset must be >= 0 and size must be > 0.")
                      400, todos)).
  { intros Hor. unfold get_todos. fold off sz.
    destruct (Z.ltb_spec off 0); [done|].
    destruct (Z.leb_spec sz 0); [done|]. lia. }
  assert (Hgood : ¬ (off < 0 ∨ sz ≤ 0) → _) by
    (intros Hok; apply (get_todos_valid args todos); lia).
  split_and!; [| eauto | exact Hgood | done | done].
  split.
  - intros Hst. destruct (decide (off < 0 ∨ sz ≤ 0)) as [|Hok]; [done|].
    rewrite (Hgood Hok) in Hst. simpl in Hst. lia.
  - intros Hor. by rewrite (Hbad Hor).
Qed.

(** [GET /todos?offset=-1] and [GET /todos?size=0] are both refused, and a
    request without parameters gets the first five items. *)
Lemma get_todos_validation_examples :
  status_code
    (get_todos {| arg_offset := Some (-1); arg_size := None |} sample_todos).1 = 400 ∧
  status_code
    (get_todos {| arg_offset := None; arg_size := Some 0 |} sample_todos).1 = 400 ∧
  get_todos {| arg_offset := None; arg_size := None |} sample_todos
  = (Response
       (Collection (add_collection_links (slice sample_todos 0 5) 0 5 16)) 200,
     sample_todos).
Proof.
  split_and!.
  - apply (proj1 (get_todos_validation
                    {| arg_offset := Some (-1); arg_size := None |} sample_todos)).
    simpl. lia.
  - apply (proj1 (get_todos_validation
                    {| arg_offset := None; arg_size := Some 0 |} sample_todos)).
    simpl. lia.
  - apply (proj1 (proj2 (proj2 (get_todos_validation
                                  {| arg_offset := None; arg_size := None |}
                                  sample_todos)))).
    simpl. lia.
Defined.

(** ** Update *)

(** For a body that parses, [request.json] yields the value and the handler
    goes on with it. *)
Ltac with_parsed_body := cbn [request_json mbind py_bind].

(** Writing an entry's own fields back leaves the list as it is. *)
Lemma insert_same_fields (todos : list todo) (i : nat) (t : todo) :
  todos !! i = Some t →
  <[ i := {| id := id t; task := task t; done := done t |} ]> todos = todos.
Proof. intros Hi. apply list_insert_id. by destruct t. Qed.

(** The data the update handler merges: [request.json or {}]. *)
Lemma update_todo_found (todo_id : Z) (body : json) (m : gmap string json)
    (todos : list todo) (i : nat) (t : todo) :
  find_todo todo_id todos = Some (i, t) →
  body = JObj m ∨ truthy body = false ∧ m = ∅ →
  let merged :=
    {| id := id t;
       task := default (task t) (m !! "task");
       done := default (done t) (m !! "done") |} in
  update_todo todo_id body todos
  = (Response (MessageTodo "To-do item updated" (add_todo_links merged)) 200,
     <[ i := merged ]> todos).
Proof.
  intros Hfind Hbody merged. unfold update_todo. rewrite Hfind. with_parsed_body.
  assert (Hdata : (if truthy body then body else JObj ∅) = JObj m).
  { destruct Hbody as [-> | [Hfalsy ->]]; [|by rewrite Hfalsy].
    destruct (truthy (JObj m)) eqn:Htruthy; [done|].
    simpl in Htruthy. apply negb_false_iff, bool_decide_eq_true in Htruthy.
    by subst m. }
  rewrite Hdata. simpl. by rewrite list_insert_insert_eq.
Qed.

(** A body that is neither empty nor a JSON object has no [get]: the handler
    raises before its first assignment, and the store is as it was. *)
Lemma update_todo_non_object (todo_id : Z) (body : json) (todos : list todo) :
  is_Some (find_todo todo_id todos) →
  truthy body = true → (∀ m, body ≠ JObj m) →
  update_todo todo_id body todos = (Unhandled AttributeError, todos).
Proof.
  intros [[i t] Hfind] Htruthy Hobj. unfold update_todo. rewrite Hfind.
  with_parsed_body. rewrite Htruthy.
  destruct body; try done. by destruct (Hobj m).
Qed.

(** Without a JSON body the update handler, once it has found the entry,
    stops at [request.json]. *)
Lemma update_todo_unparsed (todo_id : Z) (todos : list todo) :
  is_Some (find_todo todo_id todos) →
  update_todo todo_id NotJson todos = (Unhandled UnsupportedMediaType, todos) ∧
  update_todo todo_id BadJson todos = (Unhandled BadRequest, todos).
Proof. intros [[i t] Hfind]. unfold update_todo. by rewrite Hfind. Qed.

(** C5.  [PUT /todos/{id}] answers 404 (whatever the body) when no entry has
    the id.  Otherwise, for a body that is a JSON object with fields [m] (or
    a JSON body that is [null] or otherwise empty, [m] empty), the first
    entry with the id gets
    the body's [task] and [done] where the body has them and keeps its own
    values where it does not; its id, and every other entry, stay as they
    are; the answer is 200 with a message and the representation of the
    merged entry. *)
Theorem update_todo_merges (todo_id : Z) (todos : list todo) :
  (∀ body,
     (∀ t, t ∈ todos → id t ≠ todo_id) →
     update_todo todo_id body todos
     = (Response (ErrorPayload "To-do item not found") 404, todos)) ∧
  (∀ body (m : gmap string json) (i : nat) (t : todo),
     body = JObj m ∨ truthy body = false ∧ m = ∅ →
     todos !! i = Some t → id t = todo_id →
     (∀ (j : nat) u, todos !! j = Some u → (j < i)%nat → id u ≠ todo_id) →
     let merged :=
       {| id := id t;
          task := default (task t) (m !! "task");
          done := default (done t) (m !! "done") |} in
     update_todo todo_id body todos
     = (Response (MessageTodo "To-do item updated" (add_todo_links merged)) 200,
        <[ i := merged ]> todos) ∧
     (m !! "task" = None → task merged = task t) ∧
     (m !! "done" = None → done merged = done t) ∧
     (∀ v, m !! "task" = Some v → task merged = v) ∧
     (∀ v, m !! "done" = Some v → done merged = v) ∧
     (∀ j : nat, j ≠ i → <[ i := merged ]> todos !! j = todos !! j)).
Proof.
  split.
  - intros body Hnone. apply find_todo_None in Hnone.
    unfold update_todo. by rewrite Hnone.
  - intros body m i t Hbody Hi Hid Hfirst merged.
    split_and!.
    + apply update_todo_found; [|done]. by apply find_todo_Some.
    + intros Hm. subst merged. simpl. by rewrite Hm.
    + intros Hm. subst merged. simpl. by rewrite Hm.
    + intros v Hm. subst merged. simpl. by rewrite Hm.
    + intros v Hm. subst merged. simpl. by rewrite Hm.
    + intros j Hne. by apply list_lookup_insert_ne.
Qed.

(** [PUT /todos/3] with [{"done": true}] on the sample store keeps the task
    and sets [done]. *)
Lemma update_todo_merges_done_only :
  update_todo 3 (JObj {[ "done" := JBool true ]}) sample_todos
  = (Response
       (MessageTodo "To-do item updated"
          (add_todo_links
             {| id := 3; task := JStr "Test the API"; done := JBool true |}))
       200,
     <[ 2%nat := {| id := 3; task := JStr "Test the API"; done := JBool true |} ]>
       sample_todos).
Proof.
  refine (proj1 (proj2 (update_todo_merges 3 sample_todos)
                   (JObj {[ "done" := JBool true ]}) {[ "done" := JBool true ]} 2%nat
                   {| id := 3; task := JStr "Test the API"; done := JBool false |}
                   (or_introl eq_refl) eq_refl eq_refl _)).
  intros [|[|[|j]]] u Hj Hlt; [| |lia..]; injection Hj as <-; simpl; lia.
Defined.

(** For an id that exists, a JSON body that is empty, or an object with
    neither [task] nor [done], changes nothing. *)
Lemma update_todo_noop_json (todo_id : Z) (body : json) (todos : list todo) :
  (∃ t, t ∈ todos ∧ id t = todo_id) →
  (truthy body = false ∨
   ∃ m, body = JObj m ∧ m !! "task" = None ∧ m !! "done" = None) →
  ∃ t, t ∈ todos ∧ id t = todo_id ∧
       update_todo todo_id body todos
       = (Response (MessageTodo "To-do item updated" (add_todo_links t)) 200, todos).
Proof.
  intros Hex Hbody.
  apply find_todo_is_Some in Hex as [[i t] Hfind].
  pose proof Hfind as (Hi & Hid & _)%find_todo_Some.
  exists t. split; [apply list_elem_of_lookup; eauto|]. split; [done|].
  assert (∃ m, (body = JObj m ∨ truthy body = false ∧ m = ∅) ∧
               m !! "task" = None ∧ m !! "done" = None) as (m & Hm & Htask & Hdone).
  { destruct Hbody as [Hfalsy | (m & -> & ? & ?)].
    - exists ∅. split_and!; [by right | done | done].
    - exists m. split_and!; [by left | done | done]. }
  rewrite (update_todo_found todo_id body m todos i t Hfind Hm).
  cbv zeta. rewrite Htask, Hdone. simpl.
  rewrite insert_same_fields by done. by destruct t.
Qed.

(** C9 as stated fails for an absent body: a [PUT /todos/3] that carries no
    JSON body finds the entry and then stops at [request.json]; the answer
    is 415, not 200. *)
Lemma update_todo_without_body_is_refused :
  (∃ t, t ∈ sample_todos ∧ id t = 3) ∧
  update_todo 3 NotJson sample_todos = (Unhandled UnsupportedMediaType, sample_todos) ∧
  status_code (update_todo 3 NotJson sample_todos).1 = 415.
Proof.
  split_and!; [|vm_compute; reflexivity..].
  exists {| id := 3; task := JStr "Test the API"; done := JBool false |}.
  split; [|reflexivity]. apply list_elem_of_lookup. by exists 2%nat.
Qed.

(** C9, amended.  For an id that exists, a [PUT /todos/{id}] whose JSON body
    is [null] or otherwise empty, or is an object with neither [task] nor
    [done], answers 200 with the representation of the unchanged entry and
    leaves the whole store, hence that entry and every other one, as it
    was.  A request without a JSON body is not such a no-op: [request.json]
    raises and the answer is 415 (400, from Flask, when the body announces
    JSON and does not parse); the store is unchanged then too. *)
Theorem update_todo_empty_body_is_noop (todo_id : Z) (todos : list todo) :
  (∃ t, t ∈ todos ∧ id t = todo_id) →
  (∀ body : json,
     (truthy body = false ∨
      ∃ m, body = JObj m ∧ m !! "task" = None ∧ m !! "done" = None) →
     ∃ t, t ∈ todos ∧ id t = todo_id ∧
          update_todo todo_id body todos
          = (Response (MessageTodo "To-do item updated" (add_todo_links t)) 200,
             todos)) ∧
  update_todo todo_id NotJson todos = (Unhandled UnsupportedMediaType, todos) ∧
  status_code (update_todo todo_id NotJson todos).1 = 415 ∧
  update_todo todo_id BadJson todos = (Unhandled BadRequest, todos) ∧
  status_code (update_todo todo_id BadJson todos).1 = 400.
Proof.
  intros Hex.
  destruct (update_todo_unparsed todo_id todos) as [Hnot Hbad];
    [by apply find_todo_is_Some|].
  rewrite Hnot, Hbad. split_and!; try done.
  intros body. by apply update_todo_noop_json.
Qed.

(** A [PUT /todos/3] with the body [null], one with an unrelated field and
    one without a body, on the sample store. *)
Lemma update_todo_empty_body_is_noop_sample :
  (∃ t, t ∈ sample_todos ∧ id t = 3 ∧
        update_todo 3 JNull sample_todos
        = (Response (MessageTodo "To-do item updated" (add_todo_links t)) 200,
           sample_todos)) ∧
  (∃ t, t ∈ sample_todos ∧ id t = 3 ∧
        update_todo 3 (JObj {[ "note" := JStr "x" ]}) sample_todos
        = (Response (MessageTodo "To-do item updated" (add_todo_links t)) 200,
           sample_todos)) ∧
  status_code (update_todo 3 NotJson sample_todos).1 = 415.
Proof.
  assert (Hex : ∃ t, t ∈ sample_todos ∧ id t = 3).
  { exists {| id := 3; task := JStr "Test the API"; done := JBool false |}.
    split; [|reflexivity]. apply list_elem_of_lookup. by exists 2%nat. }
  destruct (update_todo_empty_body_is_noop 3 sample_todos Hex)
    as (Hnoop & _ & H415 & _).
  split_and!.
  - apply (Hnoop JNull). left. reflexivity.
  - apply (Hnoop (JObj {[ "note" := JStr "x" ]})).
    right. exists {[ "note" := JStr "x" ]}. by split_and!.
  - exact H415.
Defined.

(** ** Delete *)

Lemma filter_keeps_all (todo_id : Z) (todos : list todo) :
  (∀ t, t ∈ todos → id t ≠ todo_id) →
  filter (λ todo, id todo ≠ todo_id) todos = todos.
Proof.
  induction todos as [|t todos IH]; intros Hall; [done|].
  rewrite filter_cons_True by (apply Hall; left).
  f_equal. apply IH. intros u Hu. apply Hall. by right.
Qed.

(** C8.  [DELETE /todos/{id}] answers 200 with a message and a [collection]
    link for every id and every store, so never 404; the store it leaves
    holds, in order, the entries whose id differs, and when no entry has the
    id the store is unchanged. *)
Theorem delete_todo_always_succeeds (todo_id : Z) (todos : list todo) :
  (delete_todo todo_id todos).1
  = Response
      (MessageLinks ("To-do item with ID " +:+ str todo_id +:+ " deleted")
         {[ "collection" := {| href := url_for "get_todos" ∅ true |} ]})
      200 ∧
  status_code (delete_todo todo_id todos).1 = 200 ∧
  status_code (delete_todo todo_id todos).1 ≠ 404 ∧
  (delete_todo todo_id todos).2 = filter (λ todo, id todo ≠ todo_id) todos ∧
  ((∀ t, t ∈ todos → id t ≠ todo_id) → (delete_todo todo_id todos).2 = todos).
Proof.
  split_and!; try done.
  intros Habsent. simpl. by apply filter_keeps_all.
Qed.

(** [DELETE /todos/999] on the sample store. *)
Lemma delete_todo_always_succeeds_absent :
  status_code (delete_todo 999 sample_todos).1 = 200 ∧
  (delete_todo 999 sample_todos).2 = sample_todos.
Proof.
  destruct (delete_todo_always_succeeds 999 sample_todos)
    as (_ & Hstatus & _ & _ & Hsame).
  split; [exact Hstatus|]. apply Hsame.
  intros t Ht. repeat (apply elem_of_cons in Ht as [-> | Ht]; [simpl; lia|]).
    by apply elem_of_nil in Ht.
Defined.

(** ** Create *)

Lemma next_id_computed (todos : list todo) :
  (if bool_decide (todos = []) then Ok 1
   else (m ← py_max (id <$> todos); Ok (m + 1)))
  = Ok (next_id todos).
Proof. by destruct todos. Qed.

Lemma next_id_spec (todos : list todo) :
  (todos = [] → next_id todos = 1) ∧
  (todos ≠ [] → next_id todos - 1 ∈ id <$> todos) ∧
  (∀ t, t ∈ todos → id t ≤ next_id todos - 1).
Proof.
  destruct todos as [|t ts]; simpl.
  - split_and!; [done | done |]. intros t Ht. by apply elem_of_nil in Ht.
  - replace (foldl Z.max (id t) (id <$> ts) + 1 - 1)
      with (foldl Z.max (id t) (id <$> ts)) by lia.
    destruct (foldl_max_ge (id <$> ts) (id t)) as [Ht Hts].
    split_and!; [done | intros _; apply foldl_max_elem |].
    intros u [-> | Hu]%elem_of_cons; [done|].
    apply Hts. by apply list_elem_of_fmap_2.
Qed.

(** The create handler on a JSON object. *)
Lemma create_todo_object (m : gmap string json) (todos : list todo) :
  create_todo (JObj m) todos
  = match m !! "task" with
    | None => (Response (ErrorPayload "Task description is required") 400, todos)
    | Some v =>
        let new_todo :=
          {| id := next_id todos; task := v;
             done := default (JBool false) (m !! "done") |} in
        (Response (MessageTodo "To-do item created" (add_todo_links new_todo)) 201,
         todos ++ [new_todo])
    end.
Proof.
  unfold create_todo. with_parsed_body. simpl truthy.
  destruct (decide (m = ∅)) as [-> | Hne].
  - rewrite (bool_decide_eq_true_2 (∅ = ∅)) by done. simpl.
    by rewrite lookup_empty.
  - rewrite (bool_decide_eq_false_2 (m = ∅)) by done. simpl.
    destruct (m !! "task") as [v|] eqn:Htask.
    + rewrite (bool_decide_eq_true_2 (is_Some (Some v))) by eauto. simpl.
      by rewrite next_id_computed.
    + rewrite (bool_decide_eq_false_2 (is_Some None)) by (by intros [? ?]). done.
Qed.

(** A falsy JSON body ([null], [{}], [[]], [""], [0], [false]) is refused. *)
Lemma create_todo_falsy (data : json) (todos : list todo) :
  truthy data = false →
  create_todo data todos
  = (Response (ErrorPayload "Task description is required") 400, todos).
Proof. intros Hfalsy. unfold create_todo. with_parsed_body. by rewrite Hfalsy. Qed.

(** Without a JSON body the create handler stops at [request.json]. *)
Lemma create_todo_unparsed (todos : list todo) :
  create_todo NotJson todos = (Unhandled UnsupportedMediaType, todos) ∧
  create_todo BadJson todos = (Unhandled BadRequest, todos).
Proof. done. Qed.

(** Whatever the body, the create handler either appends one entry with the
    next id and answers 201, or leaves the store as it is and does not answer
    201. *)
Lemma create_todo_cases (body : http_body) (todos : list todo) :
  (∃ v d,
     let new_todo := {| id := next_id todos; task := v; done := d |} in
     create_todo body todos
     = (Response (MessageTodo "To-do item created" (add_todo_links new_todo)) 201,
        todos ++ [new_todo])) ∨
  ((create_todo body todos).2 = todos ∧ status_code (create_todo body todos).1 ≠ 201).
Proof.
  destruct body as [| | data]; [by right.. |].
  destruct (truthy data) eqn:Htruthy; cycle 1.
  { right. by rewrite create_todo_falsy. }
  destruct data as [| b | n | f | s | l | m]; try done.
  - right. unfold create_todo. with_parsed_body. by rewrite Htruthy.
  - right. unfold create_todo. with_parsed_body. by rewrite Htruthy.
  - right. unfold create_todo. with_parsed_body. by rewrite Htruthy.
  - right. unfold create_todo. with_parsed_body. rewrite Htruthy. simpl.
    destruct (bool_decide _); simpl; [|done].
    by rewrite next_id_computed.
  - right. unfold create_todo. with_parsed_body. rewrite Htruthy. simpl.
    destruct (existsb _ l); simpl; [|done].
    by rewrite next_id_computed.
  - rewrite create_todo_object. destruct (m !! "task") as [v|].
    + left. by exists v, (default (JBool false) (m !! "done")).
    + by right.
Qed.

(** C6 as stated fails: a body whose [task] is the empty string has no
    non-empty task, yet the create handler answers 201 and appends it. *)
Lemma create_todo_accepts_empty_task :
  has_nonempty_task (JObj {[ "task" := JStr "" ]}) = false ∧
  create_todo (JObj {[ "task" := JStr "" ]}) sample_todos
  = (Response
       (MessageTodo "To-do item created"
          (add_todo_links {| id := 17; task := JStr ""; done := JBool false |}))
       201,
     sample_todos ++ [ {| id := 17; task := JStr ""; done := JBool false |} ]).
Proof. split; vm_compute; reflexivity. Qed.

(** C6, amended.  [POST /todos] checks that the JSON body has a [task] key,
    not what the key holds.  A JSON body that is [null] or otherwise empty,
    and a JSON object without the key, get 400 with the handler's error
    payload and leave the store unchanged; a JSON object with the key,
    whatever its value, gets 201 and the entry is appended with that value;
    [done] is the body's value, or [false] when the body has none.  No 400
    answer changes the store.  A request without a JSON body does not reach
    the check: [request.json] raises, the answer is 415 (400, from Flask,
    when the body announces JSON and does not parse) and the store is
    unchanged. *)
Theorem create_todo_requires_task_key (todos : list todo) :
  (∀ data, truthy data = false →
     create_todo data todos
     = (Response (ErrorPayload "Task description is required") 400, todos)) ∧
  (∀ m : gmap string json, m !! "task" = None →
     create_todo (JObj m) todos
     = (Response (ErrorPayload "Task description is required") 400, todos)) ∧
  (∀ (m : gmap string json) v, m !! "task" = Some v →
     ∃ new_todo,
       create_todo (JObj m) todos
       = (Response (MessageTodo "To-do item created" (add_todo_links new_todo)) 201,
          todos ++ [new_todo]) ∧
       task new_todo = v ∧
       (m !! "done" = None → done new_todo = JBool false) ∧
       (∀ d, m !! "done" = Some d → done new_todo = d)) ∧
  (∀ body, status_code (create_todo body todos).1 = 400 →
     (create_todo body todos).2 = todos) ∧
  create_todo NotJson todos = (Unhandled UnsupportedMediaType, todos) ∧
  status_code (create_todo NotJson todos).1 = 415 ∧
  create_todo BadJson todos = (Unhandled BadRequest, todos) ∧
  status_code (create_todo BadJson todos).1 = 400.
Proof.
  split_and!; try done.
  - intros data. apply create_todo_falsy.
  - intros m Htask. by rewrite create_todo_object, Htask.
  - intros m v Htask. rewrite create_todo_object, Htask.
    eexists. split; [reflexivity|]. simpl.
    split_and!; [done | by intros -> | by intros d ->].
  - intros data H400. destruct (create_todo_cases data todos) as [(v & d & Heq) | [Hsame _]].
    + rewrite Heq in H400. simpl in H400. lia.
    + done.
Qed.

(** A body without [task] and a body with [task] only, on the sample store. *)
Lemma create_todo_requires_task_key_sample :
  create_todo (JObj {[ "done" := JBool true ]}) sample_todos
  = (Response (ErrorPayload "Task description is required") 400, sample_todos) ∧
  ∃ new_todo,
    create_todo (JObj {[ "task" := JStr "X" ]}) sample_todos
    = (Response (MessageTodo "To-do item created" (add_todo_links new_todo)) 201,
       sample_todos ++ [new_todo]) ∧
    task new_todo = JStr "X" ∧ done new_todo = JBool false.
Proof.
  split.
  - apply (proj1 (proj2 (create_todo_requires_task_key sample_todos))).
    vm_compute. reflexivity.
  - destruct (create_todo_requires_task_key sample_todos) as (_ & _ & Hadd & _).
    assert (Htask : ({[ "task" := JStr "X" ]} : gmap string json) !! "task"
                    = Some (JStr "X")) by (vm_compute; reflexivity).
    destruct (Hadd {[ "task" := JStr "X" ]} (JStr "X") Htask)
      as (new_todo & Heq & Hnew & Hdone & _).
    exists new_todo. split; [exact Heq|]. split; [exact Hnew|].
    apply Hdone. vm_compute. reflexivity.
Defined.

(** C7.  Whenever the create handler answers 201 it has appended exactly one
    entry at the end of the store, the one it returns, and that entry's id is
    1 for an empty store and otherwise one more than the largest id in the
    store; on the sample store (ids 1..16) the new id is 17. *)
Theorem create_todo_assigns_next_id :
  (∀ data todos,
     status_code (create_todo data todos).1 = 201 →
     ∃ new_todo,
       create_todo data todos
       = (Response (MessageTodo "To-do item created" (add_todo_links new_todo)) 201,
          todos ++ [new_todo]) ∧
       (todos = [] → id new_todo = 1) ∧
       (todos ≠ [] →
        id new_todo - 1 ∈ id <$> todos ∧ ∀ t, t ∈ todos → id t ≤ id new_todo - 1)) ∧
  (∃ new_todo,
     (create_todo (JObj {[ "task" := JStr "X" ]}) sample_todos).2
     = sample_todos ++ [new_todo] ∧
     id new_todo = 17).
Proof.
  split.
  - intros data todos H201.
    destruct (create_todo_cases data todos) as [(v & d & Heq) | [_ Hne]]; [|done].
    eexists. split; [exact Heq|]. simpl.
    destruct (next_id_spec todos) as (Hnil & Hin & Hle). split; [done|].
    intros Hne. split; [by apply Hin | done].
  - eexists. split; [vm_compute; reflexivity | reflexivity].
Qed.

(** A create on the sample store. *)
Lemma create_todo_assigns_next_id_sample :
  ∃ new_todo,
    create_todo (JObj {[ "task" := JStr "X" ]}) sample_todos
    = (Response (MessageTodo "To-do item created" (add_todo_links new_todo)) 201,
       sample_todos ++ [new_todo]) ∧
    id new_todo - 1 ∈ id <$> sample_todos.
Proof.
  assert (H201 : status_code
                   (create_todo (JObj {[ "task" := JStr "X" ]}) sample_todos).1
                 = 201) by (vm_compute; reflexivity).
  destruct (proj1 create_todo_assigns_next_id
              (JObj {[ "task" := JStr "X" ]}) sample_todos H201)
    as (new_todo & Heq & _ & Hmax).
  exists new_todo. split; [exact Heq|]. by apply Hmax.
Defined.

(** ** Uniqueness of ids *)

Lemma unique_ids_identify (todos : list todo) (t1 t2 : todo) :
  NoDup (id <$> todos) → t1 ∈ todos → t2 ∈ todos → id t1 = id t2 → t1 = t2.
Proof.
  induction todos as [|t todos IH]; simpl; intros Hnd H1 H2 Hid.
  - by apply elem_of_nil in H1.
  - apply NoDup_cons in Hnd as [Hfresh Hnd].
    apply elem_of_cons in H1 as [-> | H1], H2 as [-> | H2]; auto.
    + destruct Hfresh. rewrite Hid. by apply list_elem_of_fmap_2.
    + destruct Hfresh. rewrite <- Hid. by apply list_elem_of_fmap_2.
Qed.

Lemma update_todo_keeps_ids (todo_id : Z) (body : http_body) (todos : list todo) :
  id <$> (update_todo todo_id body todos).2 = id <$> todos.
Proof.
  unfold update_todo.
  destruct (find_todo todo_id todos) as [[i t]|] eqn:Hfind; [|done].
  apply find_todo_Some in Hfind as (Hi & _ & _).
  destruct body as [| | value]; [done.. |]. with_parsed_body.
  destruct (if truthy value then value else JObj ∅); try done. simpl.
  rewrite list_insert_insert_eq, list_fmap_insert. simpl.
  apply list_insert_id. by rewrite list_lookup_fmap, Hi.
Qed.

Lemma delete_todo_sublist (todo_id : Z) (todos : list todo) :
  (delete_todo todo_id todos).2 `sublist_of` todos.
Proof. simpl. apply sublist_filter. Qed.

Lemma create_todo_extends (body : http_body) (todos : list todo) :
  (create_todo body todos).2 = todos ∨
  ∃ new_todo, (create_todo body todos).2 = todos ++ [new_todo] ∧
              ∀ t, t ∈ todos → id t < id new_todo.
Proof.
  destruct (create_todo_cases body todos) as [(v & d & Heq) | [Hsame _]]; [|by left].
  right. eexists. rewrite Heq. split; [reflexivity|]. simpl.
  intros t Ht. destruct (next_id_spec todos) as (_ & _ & Hle).
  specialize (Hle t Ht). lia.
Qed.

(** C10.  If the ids of the store are pairwise distinct, they are pairwise
    distinct after any request (a create, an update, a delete, and the two
    reads, which leave the store alone): a create either leaves the store or
    appends an entry whose id is strictly greater than every id in it, an
    update leaves the list of ids as it is, and a delete leaves a sub-list of
    the store.  With distinct ids, two entries with the same id are the same
    entry, and [find_todo] returns the entry that has the id. *)
Theorem unique_ids_preserved (todos : list todo) :
  NoDup (id <$> todos) →
  (∀ r, NoDup (id <$> (handle r todos).2)) ∧
  (∀ data,
     (create_todo data todos).2 = todos ∨
     ∃ new_todo, (create_todo data todos).2 = todos ++ [new_todo] ∧
                 ∀ t, t ∈ todos → id t < id new_todo) ∧
  (∀ todo_id body, id <$> (update_todo todo_id body todos).2 = id <$> todos) ∧
  (∀ todo_id, (delete_todo todo_id todos).2 `sublist_of` todos) ∧
  (∀ t1 t2, t1 ∈ todos → t2 ∈ todos → id t1 = id t2 → t1 = t2) ∧
  (∀ todo_id t, t ∈ todos → id t = todo_id →
     ∃ i : nat, find_todo todo_id todos = Some (i, t)).
Proof.
  intros Hnd. split_and!.
  - intros [args | todo_id | data | todo_id body | todo_id]; simpl handle.
    + unfold get_todos. by destruct (_ || _).
    + unfold get_todo. by destruct (find_todo todo_id todos) as [[? ?]|].
    + destruct (create_todo_extends data todos) as [-> | (new_todo & -> & Hgt)]; [done|].
      rewrite fmap_app. apply NoDup_app. split_and!; [done | | apply NoDup_singleton].
      intros x (t & -> & Ht)%list_elem_of_fmap_1 Hx.
      apply list_elem_of_singleton in Hx. specialize (Hgt t Ht). lia.
    + by rewrite update_todo_keeps_ids.
    + apply (sublist_NoDup _ (id <$> todos)); [exact Hnd|].
      apply fmap_sublist, delete_todo_sublist.
  - intros data. apply create_todo_extends.
  - intros todo_id body. apply update_todo_keeps_ids.
  - intros todo_id. apply delete_todo_sublist.
  - intros t1 t2. by apply unique_ids_identify.
  - intros todo_id t Ht Hid.
    assert (is_Some (find_todo todo_id todos)) as [[i u] Hfind]
      by (apply find_todo_is_Some; eauto).
    exists i. rewrite Hfind. do 2 f_equal.
    pose proof Hfind as (Hi & Hu & _)%find_todo_Some.
    apply (unique_ids_identify todos); [done | | done | congruence].
    apply list_elem_of_lookup. eauto.
Qed.

(** The ids of the sample store are distinct, and stay so after a create, an
    update and a delete. *)
Lemma unique_ids_preserved_sample :
  NoDup (id <$> sample_todos) ∧
  NoDup (id <$> (handle (CreateTodo (JObj {[ "task" := JStr "X" ]})) sample_todos).2) ∧
  NoDup (id <$> (handle (UpdateTodo 3 (JObj {[ "done" := JBool true ]})) sample_todos).2) ∧
  NoDup (id <$> (handle (DeleteTodo 3) sample_todos).2).
Proof.
  assert (Hnd : NoDup (id <$> sample_todos)).
  { apply (bool_decide_unpack (NoDup (id <$> sample_todos))). vm_compute. exact I. }
  pose proof (proj1 (unique_ids_preserved sample_todos Hnd)) as Hall.
  split; [exact Hnd|]. split_and!; apply Hall.
Defined.

(** ** Further properties: reading one item *)

Lemma get_todo_found (todo_id : Z) (todos : list todo) (i : nat) (t : todo) :
  find_todo todo_id todos = Some (i, t) →
  get_todo todo_id todos = (Response (Item (add_todo_links t)) 200, todos).
Proof. intros Hfind. unfold get_todo. by rewrite Hfind. Qed.

Lemma get_todo_absent (todo_id : Z) (todos : list todo) :
  find_todo todo_id todos = None →
  get_todo todo_id todos = (Response (ErrorPayload "To-do item not found") 404, todos).
Proof. intros Hfind. unfold get_todo. by rewrite Hfind. Qed.

(** X1.  [GET /todos/{id}] never changes the store.  It answers 404 with an
    error payload exactly when no entry has the id; otherwise it answers 200
    with the representation of the first entry of the store that has the
    id. *)
Theorem get_todo_first_match (todo_id : Z) (todos : list todo) :
  (get_todo todo_id todos).2 = todos ∧
  (status_code (get_todo todo_id todos).1 = 404 ↔ ∀ t, t ∈ todos → id t ≠ todo_id) ∧
  ((∀ t, t ∈ todos → id t ≠ todo_id) →
   (get_todo todo_id todos).1 = Response (ErrorPayload "To-do item not found") 404) ∧
  (∀ (i : nat) t,
     todos !! i = Some t → id t = todo_id →
     (∀ (j : nat) u, todos !! j = Some u → (j < i)%nat → id u ≠ todo_id) →
     (get_todo todo_id todos).1 = Response (Item (add_todo_links t)) 200).
Proof.
  split_and!.
  - unfold get_todo. by destruct (find_todo todo_id todos) as [[? ?]|].
  - rewrite <- find_todo_None.
    destruct (find_todo todo_id todos) as [[i t]|] eqn:Hfind.
    + rewrite (get_todo_found _ _ _ _ Hfind). simpl. split; [lia | done].
    + by rewrite (get_todo_absent _ _ Hfind).
  - intros Hnone%find_todo_None. by rewrite (get_todo_absent _ _ Hnone).
  - intros i t Hi Hid Hfirst.
    rewrite (get_todo_found todo_id todos i t); [done|]. by apply find_todo_Some.
Qed.

(** With two entries of id 7, the first one is returned. *)
Lemma get_todo_first_match_duplicate :
  (get_todo 7 [ {| id := 7; task := JStr "a"; done := JBool false |};
                {| id := 7; task := JStr "b"; done := JBool true |} ]).1
  = Response (Item (add_todo_links {| id := 7; task := JStr "a"; done := JBool false |}))
      200.
Proof.
  apply (proj2 (proj2 (proj2 (get_todo_first_match 7 _))) 0%nat);
    [reflexivity | reflexivity |].
  intros j u _ Hlt. lia.
Defined.

(** The links of an item representation. *)
Lemma add_todo_links_links (t : todo) :
  dom (item_links (add_todo_links t))
  = ({[ "self"; "update"; "delete"; "collection" ]} : gset string) ∧
  item_links (add_todo_links t) !! "self"
  = Some {| href := url_for "get_todo" {[ "todo_id" := id t ]} true |} ∧
  item_links (add_todo_links t) !! "update"
  = Some {| href := url_for "update_todo" {[ "todo_id" := id t ]} true |} ∧
  item_links (add_todo_links t) !! "delete"
  = Some {| href := url_for "delete_todo" {[ "todo_id" := id t ]} true |} ∧
  item_links (add_todo_links t) !! "collection"
  = Some {| href := url_for "get_todos" ∅ true |}.
Proof.
  unfold add_todo_links; simpl. split_and!; by simplify_map_eq.
Qed.

(** X2.  The [self] link of the representation that [GET /todos/{id}]
    returns names the [get_todo] endpoint with the id of the request, and
    requesting it returns the same representation again. *)
Theorem get_todo_self_link_round_trip
    (todo_id : Z) (todos : list todo) (r : todo_repr) (st : Z) :
  (get_todo todo_id todos).1 = Response (Item r) st →
  st = 200 ∧ id (entries r) = todo_id ∧
  ∃ l, item_links r !! "self" = Some l ∧
       endpoint (href l) = "get_todo" ∧
       _external (href l) = true ∧
       values (href l) !! "todo_id" = Some todo_id ∧
       get_todo todo_id todos = (Response (Item r) 200, todos).
Proof.
  intros Hget.
  destruct (find_todo todo_id todos) as [[i t]|] eqn:Hfind.
  - rewrite (get_todo_found _ _ _ _ Hfind) in Hget |- *. simpl in Hget.
    injection Hget as <- <-.
    apply find_todo_Some in Hfind as (_ & Hid & _).
    split_and!; [done | done |].
    eexists. split; [apply add_todo_links_links|]. simpl.
    split_and!; try done. rewrite Hid. by simplify_map_eq.
  - by rewrite (get_todo_absent _ _ Hfind) in Hget.
Qed.

Lemma get_todo_self_link_round_trip_sample :
  ∃ l, item_links
         (add_todo_links {| id := 3; task := JStr "Test the API"; done := JBool false |})
       !! "self" = Some l ∧
       values (href l) !! "todo_id" = Some 3.
Proof.
  destruct (get_todo_self_link_round_trip 3 sample_todos
              (add_todo_links {| id := 3; task := JStr "Test the API"; done := JBool false |})
              200 eq_refl)
    as (_ & _ & l & Hl & _ & _ & Hid & _).
  exists l. split; [exact Hl | exact Hid].
Defined.

(** ** Further properties: pages and their links *)

Lemma get_todos_page (todos : list todo) (off sz : Z) :
  0 ≤ off → 0 < sz →
  get_todos {| arg_offset := Some off; arg_size := Some sz |} todos
  = (Response
       (Collection
          (add_collection_links (take (Z.to_nat sz) (drop (Z.to_nat off) todos))
             off sz (Z.of_nat (length todos))))
       200,
     todos).
Proof.
  intros Hoff Hsz.
  rewrite (get_todos_valid {| arg_offset := Some off; arg_size := Some sz |} todos)
    by done.
  simpl. by rewrite slice_window.
Qed.

Lemma link_args_get_todos (off sz : Z) :
  link_args {| href := url_for "get_todos" {[ "offset" := off; "size" := sz ]} true |}
  = {| arg_offset := Some off; arg_size := Some sz |}.
Proof. unfold link_args; simpl. by simplify_map_eq. Qed.

Lemma embedded_entries (items : list todo) (off sz total : Z) :
  entries <$> embedded_todos (_embedded (add_collection_links items off sz total))
  = items.
Proof. simpl. rewrite <- list_fmap_compose. apply list_fmap_id. Qed.

Lemma window_length (todos : list todo) (off sz : Z) :
  0 ≤ off → 0 < sz →
  Z.of_nat (length (take (Z.to_nat sz) (drop (Z.to_nat off) todos)))
  = Z.min sz (Z.max (Z.of_nat (length todos) - off) 0).
Proof. intros Hoff Hsz. rewrite length_take, length_drop. lia. Qed.

(** X3.  The links of a collection representation are [self] and [create],
    plus [prev] when the offset is positive and [next] when
    [offset + size < total_items], and no others.  [self] is the list
    endpoint with the offset and size the builder was given, [create] is the
    create endpoint without parameters. *)
Theorem collection_link_relations (items : list todo) (off sz total : Z) :
  let links := _links (add_collection_links items off sz total) in
  dom links
  = ({[ "self"; "create" ]} : gset string)
    ∪ (if off >? 0 then {[ "prev" ]} else ∅)
    ∪ (if off + sz <? total then {[ "next" ]} else ∅) ∧
  links !! "self"
  = Some {| href := url_for "get_todos" {[ "offset" := off; "size" := sz ]} true |} ∧
  links !! "create" = Some {| href := url_for "create_todo" ∅ true |}.
Proof.
  intros links. subst links. split; [|apply collection_self_create].
  unfold add_collection_links; simpl.
  destruct (off >? 0), (off + sz <? total);
    rewrite ?dom_insert_L, dom_singleton_L; set_solver.
Qed.

(** X4.  For valid pagination parameters the number of embedded items is
    [min(size, max(N - offset, 0))]: never more than [size], none when the
    offset is at or past the end, and at least one when it is before the
    end. *)
Theorem embedded_count (todos : list todo) (off sz : Z) :
  0 ≤ off → 0 < sz →
  let N := Z.of_nat (length todos) in
  ∃ c,
    (get_todos {| arg_offset := Some off; arg_size := Some sz |} todos).1
    = Response (Collection c) 200 ∧
    Z.of_nat (length (embedded_todos (_embedded c))) = Z.min sz (Z.max (N - off) 0) ∧
    Z.of_nat (length (embedded_todos (_embedded c))) ≤ sz ∧
    (embedded_todos (_embedded c) = [] ↔ N ≤ off).
Proof.
  intros Hoff Hsz N. rewrite get_todos_page by done. eexists. split; [done|].
  simpl. rewrite length_fmap.
  pose proof (window_length todos off sz Hoff Hsz) as Hlen. fold N in Hlen.
  split_and!; [done | lia |].
  split.
  - intros Hnil. apply (f_equal length) in Hnil.
    rewrite length_fmap in Hnil. simpl in Hnil. lia.
  - intros HN. apply nil_length_inv. rewrite length_fmap. lia.
Qed.

Lemma embedded_count_sample :
  ∃ c,
    (get_todos {| arg_offset := Some 10; arg_size := Some 4 |} sample_todos).1
    = Response (Collection c) 200 ∧
    Z.of_nat (length (embedded_todos (_embedded c))) = 4.
Proof.
  destruct (embedded_count sample_todos 10 4 ltac:(lia) ltac:(lia))
    as (c & Hc & Hlen & _).
  exists c. split; [exact Hc | exact Hlen].
Defined.

Lemma page_next (todos : list todo) (off sz : Z) (c : collection_repr) (l : link) :
  0 ≤ off → 0 < sz →
  (get_todos {| arg_offset := Some off; arg_size := Some sz |} todos).1
  = Response (Collection c) 200 →
  _links c !! "next" = Some l →
  off + sz < Z.of_nat (length todos) ∧
  link_args l = {| arg_offset := Some (off + sz); arg_size := Some sz |}.
Proof.
  intros Hoff Hsz Hc Hl. rewrite get_todos_page in Hc by done.
  simpl in Hc. injection Hc as <-. rewrite collection_next in Hl.
  destruct (Z.ltb_spec (off + sz) (Z.of_nat (length todos))) as [Hlt|]; [|done].
  injection Hl as <-. split; [done|]. apply link_args_get_todos.
Qed.

Lemma page_prev (todos : list todo) (off sz : Z) (c : collection_repr) (l : link) :
  0 ≤ off → 0 < sz →
  (get_todos {| arg_offset := Some off; arg_size := Some sz |} todos).1
  = Response (Collection c) 200 →
  _links c !! "prev" = Some l →
  0 < off ∧
  link_args l = {| arg_offset := Some (Z.max (off - sz) 0); arg_size := Some sz |}.
Proof.
  intros Hoff Hsz Hc Hl. rewrite get_todos_page in Hc by done.
  simpl in Hc. injection Hc as <-. rewrite collection_prev in Hl.
  destruct (Z.gtb_spec off 0) as [Hlt|]; [|done].
  injection Hl as <-. split; [done|]. apply link_args_get_todos.
Qed.

(** X5.  When a page (valid offset and size) has a [next] link, requesting
    that link is answered 200 with the page at [offset + size] of the same
    size; that page is not empty, its first item is the store's entry at
    position [offset + size], and its [prev] link leads back to the page the
    client came from. *)
Theorem next_link_leads_on
    (todos : list todo) (off sz : Z) (c : collection_repr) (l : link) :
  0 ≤ off → 0 < sz →
  (get_todos {| arg_offset := Some off; arg_size := Some sz |} todos).1
  = Response (Collection c) 200 →
  _links c !! "next" = Some l →
  ∃ c',
    get_todos (link_args l) todos = (Response (Collection c') 200, todos) ∧
    page c' = {| offset := off + sz; size := sz;
                 total_items := Z.of_nat (length todos) |} ∧
    embedded_todos (_embedded c') ≠ [] ∧
    (entries <$> embedded_todos (_embedded c')) !! 0%nat
    = todos !! Z.to_nat (off + sz) ∧
    ∃ l', _links c' !! "prev" = Some l' ∧
          link_args l' = {| arg_offset := Some off; arg_size := Some sz |}.
Proof.
  intros Hoff Hsz Hc Hl.
  destruct (page_next todos off sz c l Hoff Hsz Hc Hl) as [Hlt ->].
  rewrite get_todos_page by lia. eexists. split; [reflexivity|].
  split; [done|]. rewrite embedded_entries. split_and!.
  - simpl. intros Hnil. apply (f_equal length) in Hnil.
    rewrite length_fmap, length_take, length_drop in Hnil. simpl in Hnil. lia.
  - rewrite window_lookup by lia. rewrite decide_True by lia. f_equal. lia.
  - rewrite collection_prev.
    destruct (Z.gtb_spec (off + sz) 0) as [_|]; [|lia].
    eexists. split; [reflexivity|].
    rewrite link_args_get_todos. do 2 f_equal. lia.
Qed.

Lemma next_link_leads_on_sample :
  ∃ c',
    get_todos {| arg_offset := Some 5; arg_size := Some 5 |} sample_todos
    = (Response (Collection c') 200, sample_todos) ∧
    (entries <$> embedded_todos (_embedded c')) !! 0%nat = sample_todos !! 5%nat.
Proof.
  assert (Hnext : _links (add_collection_links (take 5 sample_todos) 0 5 16) !! "next"
                  = Some {| href := url_for "get_todos"
                                      {[ "offset" := 5; "size" := 5 ]} true |})
    by (vm_compute; reflexivity).
  destruct (next_link_leads_on sample_todos 0 5 _ _
              ltac:(lia) ltac:(lia) eq_refl Hnext)
    as (c' & Hc' & _ & _ & Hfirst & _).
  exists c'. split; [|exact Hfirst].
  rewrite <- Hc'. f_equal.
Defined.

(** X6.  When a page (valid offset and size) has a [prev] link, that link
    asks for offset [max(offset - size, 0)] with the same size: a valid
    request (answered 200) for a page that starts before the current one and
    reaches at least up to it, so no entry between the two is skipped.  It
    ends exactly where the current page starts when [offset >= size]; when
    [offset < size] it starts at 0 and overlaps the current page. *)
Theorem prev_link_leads_back
    (todos : list todo) (off sz : Z) (c : collection_repr) (l : link) :
  0 ≤ off → 0 < sz →
  (get_todos {| arg_offset := Some off; arg_size := Some sz |} todos).1
  = Response (Collection c) 200 →
  _links c !! "prev" = Some l →
  ∃ po c',
    link_args l = {| arg_offset := Some po; arg_size := Some sz |} ∧
    get_todos (link_args l) todos = (Response (Collection c') 200, todos) ∧
    page c' = {| offset := po; size := sz; total_items := Z.of_nat (length todos) |} ∧
    0 ≤ po < off ∧ off ≤ po + sz ∧
    (sz ≤ off → po + sz = off) ∧
    (off < sz → po = 0 ∧ off < po + sz).
Proof.
  intros Hoff Hsz Hc Hl.
  destruct (page_prev todos off sz c l Hoff Hsz Hc Hl) as [Hpos ->].
  exists (Z.max (off - sz) 0). rewrite get_todos_page by lia.
  eexists. split_and!; try done; lia.
Qed.

Lemma prev_link_leads_back_sample :
  ∃ c',
    get_todos {| arg_offset := Some 0; arg_size := Some 5 |} sample_todos
    = (Response (Collection c') 200, sample_todos) ∧
    page c' = {| offset := 0; size := 5; total_items := 16 |}.
Proof.
  assert (Hprev : _links (add_collection_links (take 5 (drop 3 sample_todos)) 3 5 16)
                  !! "prev"
                  = Some {| href := url_for "get_todos"
                                      {[ "offset" := 0; "size" := 5 ]} true |})
    by (vm_compute; reflexivity).
  destruct (prev_link_leads_back sample_todos 3 5 _ _
              ltac:(lia) ltac:(lia) eq_refl Hprev)
    as (po & c' & Hargs & Hc' & Hpage & _ & _ & _ & Hzero).
  destruct (Hzero ltac:(lia)) as [-> _].
  exists c'. split; [|exact Hpage].
  rewrite <- Hc'. f_equal.
Defined.

(** X7.  A client that starts at a valid offset and keeps following [next]
    links receives, page after page, exactly the entries of the store from
    that offset on, each once and in the store's order; starting at offset 0
    it receives the whole store.  It needs at least one request, and as many
    requests as pages of [size] cover the remaining entries; one request per
    remaining entry is therefore always enough. *)
Theorem follow_next_covers_store (fuel : nat) (todos : list todo) (off sz : Z) :
  0 ≤ off → 0 < sz →
  (1 ≤ fuel)%nat →
  (length todos - Z.to_nat off ≤ fuel)%nat ∨
  Z.of_nat (length todos) - off ≤ Z.of_nat fuel * sz →
  follow_next fuel {| arg_offset := Some off; arg_size := Some sz |} todos
  = drop (Z.to_nat off) todos.
Proof.
  intros Hoff Hsz Hone Hbound.
  assert (Hfuel : Z.of_nat (length todos) - off ≤ Z.of_nat fuel * sz)
    by (destruct Hbound; [nia | done]).
  clear Hbound. revert off Hoff Hone Hfuel.
  induction fuel as [|fuel IH]; intros off Hoff Hone Hfuel; [lia|].
  simpl follow_next. rewrite get_todos_page by done. cbn [fst]. cbv iota beta.
  rewrite embedded_entries, collection_next.
  rewrite Nat2Z.inj_succ, Z.mul_succ_l in Hfuel.
  destruct (Z.ltb_spec (off + sz) (Z.of_nat (length todos))) as [Hlt|Hge].
  - rewrite link_args_get_todos, IH; [| lia | | lia].
    + replace (Z.to_nat (off + sz)) with (Z.to_nat off + Z.to_nat sz)%nat by lia.
      rewrite <- drop_drop. apply take_drop.
    + destruct fuel; [simpl in Hfuel; lia | lia].
  - rewrite app_nil_r. apply take_ge. rewrite length_drop. lia.
Qed.

(** Four requests of size 5 read the sixteen entries of the sample store. *)
Lemma follow_next_covers_store_sample :
  follow_next 4 {| arg_offset := Some 0; arg_size := Some 5 |} sample_todos
  = sample_todos.
Proof.
  apply (follow_next_covers_store 4 sample_todos 0 5); [lia | lia | lia |].
  right. simpl. lia.
Defined.

(** ** Further properties: what create and update answer *)

(** The three ways the create handler ends. *)
Lemma create_todo_trichotomy (data : json) (todos : list todo) :
  (∃ m v,
     data = JObj m ∧ m !! "task" = Some v ∧
     let new_todo :=
       {| id := next_id todos; task := v;
          done := default (JBool false) (m !! "done") |} in
     create_todo data todos
     = (Response (MessageTodo "To-do item created" (add_todo_links new_todo)) 201,
        todos ++ [new_todo])) ∨
  ((truthy data = false ∨ contains "task" data = Ok false) ∧
   create_todo data todos
   = (Response (ErrorPayload "Task description is required") 400, todos)) ∨
  (truthy data = true ∧ (∀ m, data ≠ JObj m) ∧ contains "task" data ≠ Ok false ∧
   create_todo data todos = (Unhandled TypeError, todos)).
Proof.
  destruct (truthy data) eqn:Htruthy; cycle 1.
  { right; left. split; [by left|]. by apply create_todo_falsy. }
  destruct data as [| b | n | f | s | l | m]; try done.
  - right; right. unfold create_todo. with_parsed_body. rewrite Htruthy. by split_and!.
  - right; right. unfold create_todo. with_parsed_body. rewrite Htruthy. by split_and!.
  - right; right. unfold create_todo. with_parsed_body. rewrite Htruthy. by split_and!.
  - unfold create_todo. with_parsed_body. rewrite Htruthy. simpl.
    destruct (bool_decide _) eqn:Hsub; simpl.
    + right; right. rewrite next_id_computed. by split_and!.
    + right; left. split; [by right | done].
  - unfold create_todo. with_parsed_body. rewrite Htruthy. simpl.
    destruct (existsb _ l) eqn:Hmem; simpl.
    + right; right. rewrite next_id_computed. by split_and!.
    + right; left. split; [by right | done].
  - rewrite create_todo_object. destruct (m !! "task") as [v|] eqn:Htask.
    + left. by exists m, v.
    + right; left. split; [|done]. right. simpl.
      by rewrite bool_decide_eq_false_2 by (rewrite Htask; by intros [? ?]).
Qed.

(** The answers of the create handler to a body that parses. *)
Lemma create_todo_outcomes_json (data : json) (todos : list todo) :
  (status_code (create_todo data todos).1 = 201 ↔
   ∃ m v, data = JObj m ∧ m !! "task" = Some v) ∧
  (status_code (create_todo data todos).1 = 500 ↔
   truthy data = true ∧ (∀ m, data ≠ JObj m) ∧ contains "task" data ≠ Ok false) ∧
  (status_code (create_todo data todos).1 = 500 →
   (create_todo data todos).1 = Unhandled TypeError) ∧
  (status_code (create_todo data todos).1 = 201 ∨
   status_code (create_todo data todos).1 = 400 ∨
   status_code (create_todo data todos).1 = 500) ∧
  (status_code (create_todo data todos).1 ≠ 201 → (create_todo data todos).2 = todos).
Proof.
  destruct (create_todo_trichotomy data todos)
    as [(m & v & -> & Htask & Heq) | [[Hwhy Heq] | (Ht & Hobj & Hin & Heq)]].
  - cbv zeta in Heq. rewrite Heq. simpl. split_and!.
    + split; [intros _; eauto | done].
    + split; [lia|]. intros (_ & Hobj & _). by destruct (Hobj m).
    + lia.
    + by left.
    + done.
  - rewrite Heq. simpl. split_and!.
    + split; [lia|]. intros (m & v & -> & Htask).
      destruct Hwhy as [Hfalsy | Hno].
      * simpl in Hfalsy. apply negb_false_iff, bool_decide_eq_true in Hfalsy.
        subst m. by rewrite lookup_empty in Htask.
      * simpl in Hno. injection Hno as Hno. apply bool_decide_eq_false in Hno.
        destruct Hno. rewrite Htask. eauto.
    + split; [lia|]. intros (Ht & _ & Hin). destruct Hwhy as [Hf | Hno]; congruence.
    + lia.
    + by right; left.
    + done.
  - rewrite Heq. simpl. split_and!.
    + split; [lia|]. intros (m & v & -> & _). by destruct (Hobj m).
    + done.
    + done.
    + by right; right.
    + done.
Qed.

(** X8.  [POST /todos] answers 201, 400, 415 or 500 and nothing else.  It
    answers 415 exactly when the request has no JSON body ([request.json]
    raises), and 201 exactly when the body is a JSON object with a [task]
    key.  The handler's own 400 goes to a JSON body that is empty or does
    not contain ["task"]; a body that announces JSON and does not parse gets
    Flask's 400.  A non-empty JSON body that is not an object is not refused
    as such: a list or a string is answered 400 only when ["task"] is not
    one of its elements (not a substring), and otherwise, like every non-zero
    number and [true], makes the handler raise [TypeError] (500).  Only a
    201 changes the store. *)
Theorem create_todo_outcomes (body : http_body) (todos : list todo) :
  let status := status_code (create_todo body todos).1 in
  (status = 415 ↔ body = NotJson) ∧
  (status = 201 ↔ ∃ m v, body = Json (JObj m) ∧ m !! "task" = Some v) ∧
  (status = 500 ↔
   ∃ data : json, body = Json data ∧ truthy data = true ∧ (∀ m, data ≠ JObj m) ∧
                  contains "task" data ≠ Ok false) ∧
  (status = 500 → (create_todo body todos).1 = Unhandled TypeError) ∧
  (status = 400 ↔
   body = BadJson ∨
   ∃ data : json, body = Json data ∧
                  (truthy data = false ∨ contains "task" data = Ok false)) ∧
  ((create_todo body todos).1
   = Response (ErrorPayload "Task description is required") 400 ↔
   ∃ data : json, body = Json data ∧
                  (truthy data = false ∨ contains "task" data = Ok false)) ∧
  (status = 201 ∨ status = 400 ∨ status = 415 ∨ status = 500) ∧
  (status ≠ 201 → (create_todo body todos).2 = todos).
Proof.
  intros status. subst status. destruct body as [| | data].
  - simpl. split_and!; try done; try (split; [done | by intros (? & ? & ?)]);
      try (split; [done | by intros (? & ? & ? & ?)]).
    + split; [done | by intros [? | (? & ? & ?)]].
    + by right; right; left.
  - simpl. split_and!; try done; try (split; [done | by intros (? & ? & ?)]);
      try (split; [done | by intros (? & ? & ? & ?)]).
    + split; [intros _; by left | done].
    + by right; left.
  - destruct (create_todo_outcomes_json data todos)
      as (H201 & H500 & Hraise & Hany & Hsame).
    assert (Hrefused :
              (create_todo data todos).1
              = Response (ErrorPayload "Task description is required") 400 ↔
              truthy data = false ∨ contains "task" data = Ok false).
    { destruct (create_todo_trichotomy data todos)
        as [(m & v & -> & Htask & Heq) | [[Hwhy Heq] | (Ht & Hobj & Hin & Heq)]].
      - cbv zeta in Heq. rewrite Heq. simpl. split; [done|]. intros [Hf | Hno].
        + simpl in Hf. apply negb_false_iff, bool_decide_eq_true in Hf.
          subst m. by rewrite lookup_empty in Htask.
        + simpl in Hno. injection Hno as Hno. apply bool_decide_eq_false in Hno.
          destruct Hno. rewrite Htask. eauto.
      - rewrite Heq. simpl. done.
      - rewrite Heq. simpl. split; [done|]. intros [? | ?]; congruence. }
    assert (H400 : status_code (create_todo data todos).1 = 400 ↔
                   (create_todo data todos).1
                   = Response (ErrorPayload "Task description is required") 400).
    { destruct (create_todo_trichotomy data todos)
        as [(m & v & -> & Htask & Heq) | [[Hwhy Heq] | (Ht & Hobj & Hin & Heq)]];
        [cbv zeta in Heq|..]; rewrite Heq; simpl; (split; [lia || done | done]). }
    split_and!.
    + split; [|done]. intros H415. destruct Hany as [? | [? | ?]]; lia.
    + rewrite H201. split.
      * intros (m & v & -> & Htask). eauto.
      * intros (m & v & [= ->] & Htask). eauto.
    + rewrite H500. split.
      * intros (? & ? & ?). eauto.
      * by intros (data' & [= <-] & ? & ? & ?).
    + exact Hraise.
    + rewrite H400, Hrefused. split.
      * intros Hwhy. right. eauto.
      * intros [? | (data' & [= <-] & Hwhy)]; done.
    + rewrite Hrefused. split.
      * intros Hwhy. eauto.
      * by intros (data' & [= <-] & Hwhy).
    + destruct Hany as [? | [? | ?]]; eauto.
    + exact Hsame.
Qed.

(** A list that holds the string ["task"] passes the membership test and then
    fails at [data['task']]; a request without a JSON body is answered 415. *)
Lemma create_todo_outcomes_list_body :
  (create_todo (JList [JStr "task"]) sample_todos).1 = Unhandled TypeError ∧
  status_code (create_todo NotJson sample_todos).1 = 415.
Proof.
  split.
  - apply (proj1 (proj2 (proj2 (proj2
             (create_todo_outcomes (JList [JStr "task"]) sample_todos))))).
    vm_compute. reflexivity.
  - apply (proj1 (create_todo_outcomes NotJson sample_todos)). reflexivity.
Defined.

(** The ways the update handler ends when the id is found. *)
Lemma update_todo_trichotomy
    (todo_id : Z) (body : json) (todos : list todo) (i : nat) (t : todo) :
  find_todo todo_id todos = Some (i, t) →
  (∃ m,
     (body = JObj m ∨ truthy body = false ∧ m = ∅) ∧
     let merged :=
       {| id := id t;
          task := default (task t) (m !! "task");
          done := default (done t) (m !! "done") |} in
     update_todo todo_id body todos
     = (Response (MessageTodo "To-do item updated" (add_todo_links merged)) 200,
        <[ i := merged ]> todos)) ∨
  (truthy body = true ∧ (∀ m, body ≠ JObj m) ∧
   update_todo todo_id body todos = (Unhandled AttributeError, todos)).
Proof.
  intros Hfind. destruct (truthy body) eqn:Htruthy.
  - assert (Hcase : (∃ m, body = JObj m) ∨ ∀ m, body ≠ JObj m)
      by (destruct body; eauto).
    destruct Hcase as [[m ->] | Hno].
    + left. exists m. split; [by left|]. apply update_todo_found; [done | by left].
    + right. split; [done|]. split; [done|].
      apply update_todo_non_object; [by rewrite Hfind | done | done].
  - left. exists ∅. split; [by right|]. apply update_todo_found; [done | by right].
Qed.

(** The answers of the update handler to a body that parses. *)
Lemma update_todo_outcomes_json (todo_id : Z) (body : json) (todos : list todo) :
  (status_code (update_todo todo_id body todos).1 = 404 ↔
   ∀ t, t ∈ todos → id t ≠ todo_id) ∧
  ((∃ t, t ∈ todos ∧ id t = todo_id) →
   (status_code (update_todo todo_id body todos).1 = 200 ↔
    truthy body = false ∨ ∃ m, body = JObj m) ∧
   (status_code (update_todo todo_id body todos).1 = 500 ↔
    truthy body = true ∧ ∀ m, body ≠ JObj m) ∧
   (status_code (update_todo todo_id body todos).1 = 500 →
    (update_todo todo_id body todos).1 = Unhandled AttributeError)) ∧
  length (update_todo todo_id body todos).2 = length todos ∧
  (status_code (update_todo todo_id body todos).1 ≠ 200 →
   (update_todo todo_id body todos).2 = todos).
Proof.
  destruct (find_todo todo_id todos) as [[i t]|] eqn:Hfind.
  - assert (Hex : ∃ t, t ∈ todos ∧ id t = todo_id)
      by (apply find_todo_is_Some; by rewrite Hfind).
    destruct (update_todo_trichotomy todo_id body todos i t Hfind)
      as [(m & Hbody & Heq) | (Ht & Hobj & Heq)]; rewrite Heq; simpl.
    + split_and!; try done.
      * split; [lia|]. intros Hnone. destruct Hex as (u & Hu & Hid).
        by destruct (Hnone u Hu).
      * intros _. split_and!; [| |lia].
        -- split; [|done]. intros _. destruct Hbody as [-> | [? _]]; eauto.
        -- split; [lia|]. intros [Ht Hobj].
           destruct Hbody as [-> | [? _]]; [by destruct (Hobj m) | congruence].
      * apply length_insert.
    + split_and!; try done.
      * split; [lia|]. intros Hnone. destruct Hex as (u & Hu & Hid).
        by destruct (Hnone u Hu).
      * intros _. split_and!; [| |done].
        -- split; [lia|]. intros [? | [m ->]]; [congruence | by destruct (Hobj m)].
        -- done.
  - pose proof (proj1 (find_todo_None _ _) Hfind) as Hnone.
    unfold update_todo. rewrite Hfind. simpl. split_and!; try done.
    intros (u & Hu & Hid). by destruct (Hnone u Hu).
Qed.

(** X9.  [PUT /todos/{id}] answers 404 exactly when no entry has the id,
    whatever the request carries as its body.  When an entry has the id, the
    answer is 415 exactly for a request without a JSON body, Flask's 400
    exactly for a body that announces JSON and does not parse, 200 exactly
    for a JSON body that is empty ([null] included) or an object, and 500
    ([AttributeError]) exactly for every other JSON body (a non-empty list
    or string, a non-zero number, [true]).  The store keeps its length, and
    it is unchanged unless the answer is 200. *)
Theorem update_todo_outcomes (todo_id : Z) (body : http_body) (todos : list todo) :
  let status := status_code (update_todo todo_id body todos).1 in
  (status = 404 ↔ ∀ t, t ∈ todos → id t ≠ todo_id) ∧
  ((∃ t, t ∈ todos ∧ id t = todo_id) →
   (status = 415 ↔ body = NotJson) ∧
   (status = 400 ↔ body = BadJson) ∧
   (status = 200 ↔
    ∃ v : json, body = Json v ∧ (truthy v = false ∨ ∃ m, v = JObj m)) ∧
   (status = 500 ↔
    ∃ v : json, body = Json v ∧ truthy v = true ∧ ∀ m, v ≠ JObj m) ∧
   (status = 500 → (update_todo todo_id body todos).1 = Unhandled AttributeError)) ∧
  length (update_todo todo_id body todos).2 = length todos ∧
  (status ≠ 200 → (update_todo todo_id body todos).2 = todos).
Proof.
  intros status. subst status. destruct body as [| | v].
  - destruct (find_todo todo_id todos) as [[i t]|] eqn:Hfind.
    + destruct (update_todo_unparsed todo_id todos) as [Heq _];
        [by rewrite Hfind|].
      rewrite Heq. simpl. split_and!; try done.
      * split; [done|]. intros Hnone%find_todo_None. congruence.
      * intros _. split_and!; try done;
          (split; [done | by intros (? & ? & ?)]).
    + pose proof (proj1 (find_todo_None _ _) Hfind) as Hnone.
      unfold update_todo. rewrite Hfind. simpl. split_and!; try done.
      intros (u & Hu & Hid). by destruct (Hnone u Hu).
  - destruct (find_todo todo_id todos) as [[i t]|] eqn:Hfind.
    + destruct (update_todo_unparsed todo_id todos) as [_ Heq];
        [by rewrite Hfind|].
      rewrite Heq. simpl. split_and!; try done.
      * split; [done|]. intros Hnone%find_todo_None. congruence.
      * intros _. split_and!; try done;
          (split; [done | by intros (? & ? & ?)]).
    + pose proof (proj1 (find_todo_None _ _) Hfind) as Hnone.
      unfold update_todo. rewrite Hfind. simpl. split_and!; try done.
      intros (u & Hu & Hid). by destruct (Hnone u Hu).
  - destruct (update_todo_outcomes_json todo_id v todos)
      as (H404 & Hfound & Hlen & Hsame).
    split_and!; [exact H404 | | exact Hlen | exact Hsame].
    intros Hex. destruct (Hfound Hex) as (H200 & H500 & Hraise).
    assert (Hany : status_code (update_todo todo_id v todos).1 = 200 ∨
                   status_code (update_todo todo_id v todos).1 = 500).
    { destruct (truthy v) eqn:Htruthy; [|left; apply H200; by left].
      assert (Hcase : (∃ m, v = JObj m) ∨ ∀ m, v ≠ JObj m)
        by (destruct v; eauto).
      destruct Hcase as [Hobj | Hobj]; [left; apply H200; by right|].
      right. by apply H500. }
    split_and!.
    + split; [|done]. intros ?. destruct Hany; lia.
    + split; [|done]. intros ?. destruct Hany; lia.
    + rewrite H200. split.
      * intros Hwhy. eauto.
      * by intros (v' & [= <-] & Hwhy).
    + rewrite H500. split.
      * intros Hwhy. eauto.
      * by intros (v' & [= <-] & Hwhy).
    + exact Hraise.
Qed.

(** A list as the body of an update of an existing entry, and an update
    without a JSON body. *)
Lemma update_todo_outcomes_list_body :
  (update_todo 3 (JList [JInt 1]) sample_todos).1 = Unhandled AttributeError ∧
  status_code (update_todo 3 NotJson sample_todos).1 = 415.
Proof.
  assert (Hex : ∃ t, t ∈ sample_todos ∧ id t = 3).
  { exists {| id := 3; task := JStr "Test the API"; done := JBool false |}.
    split; [|reflexivity]. apply list_elem_of_lookup. by exists 2%nat. }
  split.
  - destruct (proj1 (proj2 (update_todo_outcomes 3 (JList [JInt 1]) sample_todos)) Hex)
      as (_ & _ & _ & _ & Hraise).
    apply Hraise. vm_compute. reflexivity.
  - destruct (proj1 (proj2 (update_todo_outcomes 3 NotJson sample_todos)) Hex)
      as (H415 & _).
    by apply H415.
Defined.

(** ** Further properties: how the operations compose *)

(** [get_todo] depends on the store only through the entry [find_todo]
    returns. *)
Lemma get_todo_ext (k : Z) (todos1 todos2 : list todo) :
  snd <$> find_todo k todos1 = snd <$> find_todo k todos2 →
  (get_todo k todos1).1 = (get_todo k todos2).1.
Proof.
  unfold get_todo. intros Heq.
  destruct (find_todo k todos1) as [[i1 t1]|], (find_todo k todos2) as [[i2 t2]|];
    simpl in Heq; by simplify_eq.
Qed.

Lemma find_todo_insert_other (k : Z) (todos : list todo) (i : nat) (t y : todo) :
  todos !! i = Some t → id t ≠ k → id y ≠ k →
  find_todo k (<[ i := y ]> todos) = find_todo k todos.
Proof.
  unfold find_todo. revert i.
  induction todos as [|u todos IH]; intros [|i] Hi Ht Hy; simplify_eq/=.
  - by rewrite !decide_False by done.
  - case_decide; [done|]. by rewrite (IH i).
Qed.

Lemma find_todo_filter_other (k d : Z) (todos : list todo) :
  k ≠ d →
  snd <$> find_todo k (filter (λ todo, id todo ≠ d) todos) = snd <$> find_todo k todos.
Proof.
  intros Hne. unfold find_todo. induction todos as [|u todos IH]; [done|].
  destruct (decide (id u = d)) as [Hu | Hu].
  - rewrite filter_cons_False by naive_solver. simpl.
    rewrite decide_False by congruence.
    rewrite IH. by destruct (list_find _ todos) as [[? ?]|].
  - rewrite filter_cons_True by done. simpl. case_decide; [done|].
    destruct (list_find _ (filter _ todos)) as [[? ?]|],
      (list_find _ todos) as [[? ?]|]; simpl in *; by simplify_eq.
Qed.

Lemma find_todo_appended (todos : list todo) (new_todo : todo) :
  (∀ t, t ∈ todos → id t < id new_todo) →
  find_todo (id new_todo) (todos ++ [new_todo]) = Some (length todos, new_todo).
Proof.
  intros Hlt. apply find_todo_Some. split_and!.
  - by apply list_lookup_middle.
  - done.
  - intros j u Hj Hlen. rewrite lookup_app_l in Hj by done.
    assert (id u < id new_todo); [|lia].
    apply Hlt, list_elem_of_lookup. eauto.
Qed.

Lemma next_id_above (todos : list todo) (t : todo) :
  t ∈ todos → id t < next_id todos.
Proof.
  intros Ht. destruct (next_id_spec todos) as (_ & _ & Hle).
  specialize (Hle t Ht). lia.
Qed.

(** X10.  After a create answered 201, [GET /todos/{id}] with the id of the
    returned representation answers 200 with that same representation, and
    every id that could be read before the create still reads the same. *)
Theorem create_then_get
    (data : json) (todos todos' : list todo) (message : string) (r : todo_repr) :
  create_todo data todos = (Response (MessageTodo message r) 201, todos') →
  get_todo (id (entries r)) todos' = (Response (Item r) 200, todos') ∧
  (∀ t, t ∈ todos → id t ≠ id (entries r)) ∧
  (∀ k r', (get_todo k todos).1 = Response (Item r') 200 →
           (get_todo k todos').1 = Response (Item r') 200).
Proof.
  intros Hcreate.
  destruct (create_todo_trichotomy data todos)
    as [(m & v & -> & Htask & Heq) | [[_ Heq] | (_ & _ & _ & Heq)]];
    rewrite Heq in Hcreate; [|done..].
  cbv zeta in Hcreate. injection Hcreate as <- <- <-. simpl entries.
  set (new_todo := {| id := next_id todos; task := v;
                      done := default (JBool false) (m !! "done") |}).
  assert (Habove : ∀ t, t ∈ todos → id t < id new_todo)
    by (intros t Ht; by apply next_id_above).
  split_and!.
  - apply (get_todo_found _ _ (length todos)). by apply find_todo_appended.
  - intros t Ht. specialize (Habove t Ht). lia.
  - intros k r' Hget. rewrite <- Hget. unfold get_todo.
    destruct (find_todo k todos) as [[i t]|] eqn:Hfind.
    + unfold find_todo in *. by rewrite (list_find_app_l _ _ _ _ _ Hfind).
    + by rewrite (get_todo_absent _ _ Hfind) in Hget.
Qed.

Lemma create_then_get_sample :
  get_todo 17 (sample_todos ++ [ {| id := 17; task := JStr "X"; done := JBool false |} ])
  = (Response (Item (add_todo_links {| id := 17; task := JStr "X"; done := JBool false |}))
       200,
     sample_todos ++ [ {| id := 17; task := JStr "X"; done := JBool false |} ]).
Proof.
  assert (Hcreate : create_todo (JObj {[ "task" := JStr "X" ]}) sample_todos
                    = (Response
                         (MessageTodo "To-do item created"
                            (add_todo_links
                               {| id := 17; task := JStr "X"; done := JBool false |}))
                         201,
                       sample_todos
                       ++ [ {| id := 17; task := JStr "X"; done := JBool false |} ]))
    by (vm_compute; reflexivity).
  exact (proj1 (create_then_get _ _ _ _ _ Hcreate)).
Defined.

(** X11.  After an update answered 200, [GET /todos/{id}] with the same id
    answers 200 with the representation the update returned; the id of that
    representation is the id of the request, and a read of any other id
    answers as it did before the update. *)
Theorem update_then_get
    (todo_id : Z) (body : json) (todos todos' : list todo)
    (message : string) (r : todo_repr) :
  update_todo todo_id body todos = (Response (MessageTodo message r) 200, todos') →
  get_todo todo_id todos' = (Response (Item r) 200, todos') ∧
  id (entries r) = todo_id ∧
  (∀ k, k ≠ todo_id → (get_todo k todos').1 = (get_todo k todos).1).
Proof.
  intros Hupdate.
  destruct (find_todo todo_id todos) as [[i t]|] eqn:Hfind; cycle 1.
  { unfold update_todo in Hupdate. by rewrite Hfind in Hupdate. }
  pose proof Hfind as (Hi & Hid & Hfirst)%find_todo_Some.
  destruct (update_todo_trichotomy todo_id body todos i t Hfind)
    as [(m & _ & Heq) | (_ & _ & Heq)]; rewrite Heq in Hupdate; [|done].
  cbv zeta in Hupdate. injection Hupdate as <- <- <-. simpl entries.
  set (merged := {| id := id t; task := default (task t) (m !! "task");
                    done := default (done t) (m !! "done") |}).
  split_and!; [|done|].
  - apply (get_todo_found _ _ i). apply find_todo_Some. split_and!.
    + apply list_lookup_insert_eq. by apply lookup_lt_Some in Hi.
    + done.
    + intros j u Hj Hlt. rewrite list_lookup_insert_ne in Hj by lia. by apply (Hfirst j).
  - intros k Hk. apply get_todo_ext. f_equal.
    apply (find_todo_insert_other k todos i t merged); [done | congruence|].
    simpl. congruence.
Qed.

Lemma update_then_get_sample :
  get_todo 3
    (<[ 2%nat := {| id := 3; task := JStr "Test the API"; done := JBool true |} ]>
       sample_todos)
  = (Response
       (Item (add_todo_links {| id := 3; task := JStr "Test the API"; done := JBool true |}))
       200,
     <[ 2%nat := {| id := 3; task := JStr "Test the API"; done := JBool true |} ]>
       sample_todos).
Proof.
  assert (Hupdate : update_todo 3 (JObj {[ "done" := JBool true ]}) sample_todos
                    = (Response
                         (MessageTodo "To-do item updated"
                            (add_todo_links
                               {| id := 3; task := JStr "Test the API";
                                  done := JBool true |}))
                         200,
                       <[ 2%nat := {| id := 3; task := JStr "Test the API";
                                      done := JBool true |} ]> sample_todos))
    by (vm_compute; reflexivity).
  exact (proj1 (update_then_get _ _ _ _ _ _ Hupdate)).
Defined.

(** X12.  After [DELETE /todos/{id}] no entry has the id, so a read of it
    answers 404, also when several entries had it; a read of any other id
    answers as before; deleting the same id again changes nothing more; and
    two deletes leave the same store in either order. *)
Theorem delete_then_get (todo_id : Z) (todos : list todo) :
  let todos' := (delete_todo todo_id todos).2 in
  (∀ t, t ∈ todos' → id t ≠ todo_id) ∧
  get_todo todo_id todos' = (Response (ErrorPayload "To-do item not found") 404, todos') ∧
  (∀ k, k ≠ todo_id → (get_todo k todos').1 = (get_todo k todos).1) ∧
  (delete_todo todo_id todos').2 = todos' ∧
  (∀ other,
     (delete_todo other todos').2 = (delete_todo todo_id (delete_todo other todos).2).2).
Proof.
  intros todos'. subst todos'. simpl.
  assert (Hgone : ∀ t, t ∈ filter (λ todo, id todo ≠ todo_id) todos → id t ≠ todo_id)
    by (intros t Ht; by apply list_elem_of_filter in Ht as [? _]).
  split_and!.
  - done.
  - apply get_todo_absent. by apply find_todo_None.
  - intros k Hk. apply get_todo_ext. by apply find_todo_filter_other.
  - by apply filter_keeps_all.
  - intros other. rewrite !list_filter_filter. apply list_filter_iff.
    intros t. split; intros [? ?]; by split.
Qed.

(** X13.  Deleting the entry a create has just appended gives back the store
    as it was before the create; the next create then assigns the same id
    again, so an id can name different entries over time. *)
Theorem create_then_delete
    (data : json) (todos todos' : list todo) (message : string) (r : todo_repr) :
  create_todo data todos = (Response (MessageTodo message r) 201, todos') →
  (delete_todo (id (entries r)) todos').2 = todos ∧
  (∀ data' message' r' todos'',
     create_todo data' (delete_todo (id (entries r)) todos').2
     = (Response (MessageTodo message' r') 201, todos'') →
     id (entries r') = id (entries r)).
Proof.
  intros Hcreate.
  destruct (create_todo_trichotomy data todos)
    as [(m & v & -> & Htask & Heq) | [[_ Heq] | (_ & _ & _ & Heq)]];
    rewrite Heq in Hcreate; [|done..].
  cbv zeta in Hcreate. injection Hcreate as <- <- <-. simpl entries. simpl id.
  assert (Hback : (delete_todo (next_id todos)
                     (todos ++ [ {| id := next_id todos; task := v;
                                    done := default (JBool false) (m !! "done") |} ])).2
                  = todos).
  { simpl. rewrite filter_app, filter_cons_False, filter_nil, app_nil_r
      by (simpl; naive_solver).
    apply filter_keeps_all. intros t Ht. apply next_id_above in Ht. lia. }
  split; [exact Hback|].
  intros data' message' r' todos'' Hcreate'. rewrite Hback in Hcreate'.
  destruct data' as [| | data']; [done.. |].
  destruct (create_todo_trichotomy data' todos)
    as [(m' & v' & -> & Htask' & Heq') | [[_ Heq'] | (_ & _ & _ & Heq')]];
    rewrite Heq' in Hcreate'; [|done..].
  cbv zeta in Hcreate'. by injection Hcreate' as <- <- <-.
Qed.

Lemma create_then_delete_sample :
  (delete_todo 17
     (sample_todos ++ [ {| id := 17; task := JStr "X"; done := JBool false |} ])).2
  = sample_todos.
Proof.
  assert (Hcreate : create_todo (JObj {[ "task" := JStr "X" ]}) sample_todos
                    = (Response
                         (MessageTodo "To-do item created"
                            (add_todo_links
                               {| id := 17; task := JStr "X"; done := JBool false |}))
                         201,
                       sample_todos
                       ++ [ {| id := 17; task := JStr "X"; done := JBool false |} ]))
    by (vm_compute; reflexivity).
  exact (proj1 (create_then_delete _ _ _ _ _ Hcreate)).
Defined.

(** ** Further properties: invariants of the store *)

Lemma StronglySorted_sublist_lt (xs ys : list Z) :
  xs `sublist_of` ys → StronglySorted Z.lt ys → StronglySorted Z.lt xs.
Proof.
  induction 1 as [|x xs ys Hsub IH|x xs ys Hsub IH]; intros Hys.
  - done.
  - apply StronglySorted_cons in Hys as [Hall Hys].
    apply StronglySorted_cons. split; [|by apply IH].
    apply Forall_forall. intros y Hy. rewrite Forall_forall in Hall.
    apply Hall. by apply (sublist_subseteq _ _ Hsub).
  - apply StronglySorted_cons in Hys as [_ Hys]. by apply IH.
Qed.

Lemma StronglySorted_lt_NoDup (xs : list Z) : StronglySorted Z.lt xs → NoDup xs.
Proof.
  induction xs as [|x xs IH]; intros Hxs; [constructor|].
  apply StronglySorted_cons in Hxs as [Hall Hxs].
  apply NoDup_cons. split; [|by apply IH].
  intros Hin. rewrite Forall_forall in Hall. specialize (Hall x Hin). lia.
Qed.

(** One request keeps the ids increasing and at least 1. *)
Lemma handle_keeps_order (r : request) (todos : list todo) :
  ids_increasing todos → Forall (Z.le 1) (id <$> todos) →
  ids_increasing (handle r todos).2 ∧ Forall (Z.le 1) (id <$> (handle r todos).2).
Proof.
  unfold ids_increasing. intros Hinc Hpos.
  destruct r as [args | todo_id | data | todo_id body | todo_id]; simpl handle.
  - unfold get_todos. by destruct (_ || _).
  - unfold get_todo. by destruct (find_todo todo_id todos) as [[? ?]|].
  - destruct data as [| | data]; [done.. |].
    destruct (create_todo_trichotomy data todos)
      as [(m & v & -> & Htask & Heq) | [[_ Heq] | (_ & _ & _ & Heq)]];
      rewrite Heq; [|done..].
    cbv zeta. simpl snd. rewrite fmap_app. simpl. split.
    + apply StronglySorted_app. split_and!; [|done|repeat constructor].
      intros x1 x2 (t & -> & Ht)%list_elem_of_fmap_1 ->%list_elem_of_singleton.
      by apply next_id_above.
    + apply Forall_app. split; [done|]. apply Forall_singleton.
      destruct todos as [|t ts]; [done|]. simpl.
      apply Forall_cons in Hpos as [Ht _].
      destruct (foldl_max_ge (id <$> ts) (id t)) as [Hge _]. lia.
  - by rewrite update_todo_keeps_ids.
  - assert (Hsub : id <$> (delete_todo todo_id todos).2 `sublist_of` id <$> todos)
      by apply fmap_sublist, delete_todo_sublist.
    split; [by apply (StronglySorted_sublist_lt _ _ Hsub)|].
    rewrite Forall_forall in Hpos |- *. intros x Hx.
    apply Hpos. by apply (sublist_subseteq _ _ Hsub).
Qed.

(** X14.  If the ids of the store increase along the list and are at least
    1, as they are in the list the module starts with, then after any
    sequence of requests they still increase along the list and are at least
    1; in particular they are pairwise distinct and the listing stays ordered
    by id. *)
Theorem ids_stay_ordered (rs : list request) (todos : list todo) :
  ids_increasing todos → Forall (Z.le 1) (id <$> todos) →
  ids_increasing (handle_all rs todos) ∧
  Forall (Z.le 1) (id <$> handle_all rs todos) ∧
  NoDup (id <$> handle_all rs todos).
Proof.
  revert todos. induction rs as [|r rs IH]; intros todos Hinc Hpos.
  - simpl. split_and!; [done | done | by apply StronglySorted_lt_NoDup].
  - destruct (handle_keeps_order r todos Hinc Hpos) as [Hinc' Hpos'].
    apply (IH _ Hinc' Hpos').
Qed.

Lemma ids_stay_ordered_sample :
  NoDup
    (id <$> handle_all
              [ DeleteTodo 16; CreateTodo (JObj {[ "task" := JStr "X" ]});
                UpdateTodo 3 (JObj {[ "done" := JBool true ]}); DeleteTodo 1 ]
              sample_todos).
Proof.
  refine (proj2 (proj2 (ids_stay_ordered _ sample_todos _ _))).
  - unfold ids_increasing. simpl. repeat (constructor; [|repeat constructor; lia]).
    constructor.
  - simpl. repeat constructor; lia.
Defined.

(** ** Further properties: the item representations in the responses *)

Lemma slice_subseteq {A} (l : list A) (start stop : Z) : slice l start stop ⊆ l.
Proof.
  unfold slice. etrans; [apply subseteq_take | apply subseteq_drop].
Qed.

(** Every item representation a response carries is built from an entry of
    the store the request leaves behind. *)
Lemma representation_of_entry (r : request) (todos : list todo) (rep : todo_repr) :
  rep ∈ outcome_representations (handle r todos).1 →
  ∃ t, t ∈ (handle r todos).2 ∧ rep = add_todo_links t.
Proof.
  destruct r as [args | todo_id | data | todo_id body | todo_id]; simpl handle.
  - unfold get_todos. destruct (_ || _); simpl; [by intros ?%elem_of_nil|].
    intros (t & -> & Ht)%list_elem_of_fmap_1. exists t. split; [|done].
    eapply slice_subseteq, Ht.
  - destruct (find_todo todo_id todos) as [[i t]|] eqn:Hfind.
    + rewrite (get_todo_found _ _ _ _ Hfind). simpl.
      intros ->%list_elem_of_singleton. exists t. split; [|done].
      apply find_todo_Some in Hfind as (Hi & _). apply list_elem_of_lookup. eauto.
    + rewrite (get_todo_absent _ _ Hfind). simpl. by intros ?%elem_of_nil.
  - destruct data as [| | data]; [simpl; by intros ?%elem_of_nil.. |].
    destruct (create_todo_trichotomy data todos)
      as [(m & v & -> & Htask & Heq) | [[_ Heq] | (_ & _ & _ & Heq)]];
      rewrite Heq; simpl; [|by intros ?%elem_of_nil..].
    intros ->%list_elem_of_singleton. eexists. split; [|done].
    apply elem_of_app. right. apply list_elem_of_here.
  - destruct (find_todo todo_id todos) as [[i t]|] eqn:Hfind; cycle 1.
    { unfold update_todo. rewrite Hfind. simpl. by intros ?%elem_of_nil. }
    destruct body as [| | body];
      [unfold update_todo; rewrite Hfind; simpl; by intros ?%elem_of_nil.. |].
    destruct (update_todo_trichotomy todo_id body todos i t Hfind)
      as [(m & _ & Heq) | (_ & _ & Heq)]; rewrite Heq; simpl;
      [|by intros ?%elem_of_nil].
    intros ->%list_elem_of_singleton. eexists. split; [|done].
    apply list_elem_of_lookup. exists i. apply list_lookup_insert_eq.
    apply find_todo_Some in Hfind as (Hi & _). by apply lookup_lt_Some in Hi.
  - simpl. by intros ?%elem_of_nil.
Qed.

(** X15.  Every item representation in the response to any request (the
    items embedded in a page, the item of a read, a create or an update)
    is an entry of the store as the request leaves it, together with exactly
    four links: [self], [update] and [delete], which name the item endpoints
    with that entry's id, and [collection], the list endpoint without
    parameters. *)
Theorem representations_have_item_links
    (r : request) (todos : list todo) (rep : todo_repr) :
  rep ∈ outcome_representations (handle r todos).1 →
  entries rep ∈ (handle r todos).2 ∧
  dom (item_links rep) = ({[ "self"; "update"; "delete"; "collection" ]} : gset string) ∧
  item_links rep !! "self"
  = Some {| href := url_for "get_todo" {[ "todo_id" := id (entries rep) ]} true |} ∧
  item_links rep !! "update"
  = Some {| href := url_for "update_todo" {[ "todo_id" := id (entries rep) ]} true |} ∧
  item_links rep !! "delete"
  = Some {| href := url_for "delete_todo" {[ "todo_id" := id (entries rep) ]} true |} ∧
  item_links rep !! "collection" = Some {| href := url_for "get_todos" ∅ true |}.
Proof.
  intros (t & Ht & ->)%representation_of_entry.
  split; [done|]. apply add_todo_links_links.
Qed.

Lemma representations_have_item_links_sample :
  {| id := 16; task := JStr "Build a WebSockets connection"; done := JBool false |}
  ∈ sample_todos.
Proof.
  assert (Hin : add_todo_links
                  {| id := 16; task := JStr "Build a WebSockets connection";
                     done := JBool false |}
                ∈ outcome_representations
                    (handle (GetTodos {| arg_offset := Some 15; arg_size := Some 5 |})
                       sample_todos).1)
    by (vm_compute; apply list_elem_of_here).
  exact (proj1 (representations_have_item_links _ _ _ Hin)).
Defined.

Lemma handle_keeps_NoDup (r : request) (todos : list todo) :
  NoDup (id <$> todos) → NoDup (id <$> (handle r todos).2).
Proof.
  intros Hnd.
  destruct r as [args | todo_id | data | todo_id body | todo_id]; simpl handle.
  - unfold get_todos. by destruct (_ || _).
  - unfold get_todo. by destruct (find_todo todo_id todos) as [[? ?]|].
  - destruct (create_todo_extends data todos) as [-> | (new_todo & -> & Hgt)]; [done|].
    rewrite fmap_app. apply NoDup_app. split_and!; [done | | apply NoDup_singleton].
    intros x (t & -> & Ht)%list_elem_of_fmap_1 Hx.
    apply list_elem_of_singleton in Hx. specialize (Hgt t Ht). lia.
  - by rewrite update_todo_keeps_ids.
  - apply (sublist_NoDup _ (id <$> todos)); [exact Hnd|].
    apply fmap_sublist, delete_todo_sublist.
Qed.

Lemma find_todo_unique (todos : list todo) (t : todo) :
  NoDup (id <$> todos) → t ∈ todos → ∃ i : nat, find_todo (id t) todos = Some (i, t).
Proof.
  intros Hnd Ht.
  assert (is_Some (find_todo (id t) todos)) as [[i u] Hfind]
    by (apply find_todo_is_Some; eauto).
  exists i. rewrite Hfind. do 2 f_equal.
  pose proof Hfind as (Hi & Hu & _)%find_todo_Some.
  apply (unique_ids_identify todos); [done | | done | done].
  apply list_elem_of_lookup. eauto.
Qed.

(** X16.  When the ids of the store are pairwise distinct, every item
    representation in the response to any request can be read again through
    its [self] link: the link names the [get_todo] endpoint with an id, and
    [GET /todos/{id}] on the store the request left answers 200 with the same
    representation.  With a duplicated id this fails for the later entry. *)
Theorem self_links_resolve (r : request) (todos : list todo) (rep : todo_repr) :
  NoDup (id <$> todos) →
  rep ∈ outcome_representations (handle r todos).1 →
  ∃ l k,
    item_links rep !! "self" = Some l ∧
    endpoint (href l) = "get_todo" ∧
    values (href l) !! "todo_id" = Some k ∧
    get_todo k (handle r todos).2 = (Response (Item rep) 200, (handle r todos).2).
Proof.
  intros Hnd (t & Ht & ->)%representation_of_entry.
  destruct (find_todo_unique (handle r todos).2 t (handle_keeps_NoDup r todos Hnd) Ht)
    as [i Hfind].
  eexists _, (id t). split; [apply add_todo_links_links|]. simpl.
  split_and!; [done | by simplify_map_eq |].
  by apply (get_todo_found _ _ i).
Qed.

Lemma self_links_resolve_sample :
  ∃ l k,
    item_links
      (add_todo_links
         {| id := 16; task := JStr "Build a WebSockets connection"; done := JBool false |})
    !! "self" = Some l ∧
    values (href l) !! "todo_id" = Some k ∧
    get_todo k sample_todos
    = (Response
         (Item (add_todo_links
                  {| id := 16; task := JStr "Build a WebSockets connection";
                     done := JBool false |}))
         200,
       sample_todos).
Proof.
  assert (Hnd : NoDup (id <$> sample_todos)).
  { apply (bool_decide_unpack (NoDup (id <$> sample_todos))). vm_compute. exact I. }
  assert (Hin : add_todo_links
                  {| id := 16; task := JStr "Build a WebSockets connection";
                     done := JBool false |}
                ∈ outcome_representations
                    (handle (GetTodos {| arg_offset := Some 15; arg_size := Some 5 |})
                       sample_todos).1)
    by (vm_compute; apply list_elem_of_here).
  destruct (self_links_resolve _ _ _ Hnd Hin) as (l & k & Hl & _ & Hk & Hget).
  exists l, k. split; [exact Hl|]. split; [exact Hk | exact Hget].
Defined.

(** With two entries of id 7 the second one is embedded in the page, but its
    [self] link reads the first. *)
Example ex_self_link_duplicate :
  let todos := [ {| id := 7; task := JStr "a"; done := JBool false |};
                 {| id := 7; task := JStr "b"; done := JBool true |} ] in
  add_todo_links {| id := 7; task := JStr "b"; done := JBool true |}
  ∈ outcome_representations
      (handle (GetTodos {| arg_offset := None; arg_size := None |}) todos).1 ∧
  (get_todo 7 todos).1
  = Response (Item (add_todo_links {| id := 7; task := JStr "a"; done := JBool false |}))
      200.
Proof.
  split; [|vm_compute; reflexivity].
  vm_compute. apply list_elem_of_further, list_elem_of_here.
Qed.
